(** * aws-cdk: the scalable-attribute facade and the module scaffolder

    A shallow embedding of
    [packages/@aws-cdk/aws-applicationautoscaling/lib/base-scalable-attribute.ts]
    (the [BaseScalableAttribute] construct) and of the script that follows it
    in the same source file and creates a module for every CloudFormation
    namespace that has none ([main], [write], [exec] and the top-level
    [catch] handler).

    JavaScript strings are modelled as Rocq strings whose characters are code
    units below 256.  Everything the script asks of the outside world (the
    file system, child processes, the console, [require]) is an event of an
    effect tree; the outside world is a handler, and the theorems quantify
    over every handler. *)

From Stdlib Require Import Ascii String ZArith Lia List.
From Stdlib Require DecimalString.
From stdpp Require Import base tactics option list strings gmap.

Local Open Scope stdpp_scope.
Local Set Warnings "-register-all".

(* ===================================================================== *)
(** * JavaScript strings *)
(* ===================================================================== *)

Module Js.

(** The line feed, as in the literal ['\n']. *)
Definition LF : string := String (ascii_of_nat 10) EmptyString.

(** One code unit of [String.prototype.toLocaleLowerCase], among the code
    units below 256: the letters [A]..[Z] move to [a]..[z], the capitals
    192..222 of Latin-1 move up by 32 as well, but for the multiplication
    sign 215; every other code unit is kept. *)
Definition lower_char (c : ascii) : ascii :=
  let n := nat_of_ascii c in
  if (Nat.leb 65 n && Nat.leb n 90
      || Nat.leb 192 n && Nat.leb n 222 && negb (Nat.eqb n 215))%bool
  then ascii_of_nat (n + 32) else c.

(** [s.toLocaleLowerCase()] *)
Fixpoint toLocaleLowerCase (s : string) : string :=
  match s with
  | EmptyString => EmptyString
  | String c s' => String (lower_char c) (toLocaleLowerCase s')
  end.

(** [s.startsWith(p)] *)
Fixpoint startsWith (p s : string) : bool :=
  match p, s with
  | EmptyString, _ => true
  | String _ _, EmptyString => false
  | String a p', String b s' => if decide (a = b) then startsWith p' s' else false
  end.

(** [s.includes(p)] *)
Fixpoint includes (p s : string) : bool :=
  match s with
  | EmptyString => startsWith p EmptyString
  | String _ s' => (startsWith p s || includes p s')%bool
  end.

(** Reversal of an accumulator of code units. *)
Fixpoint rev_onto (acc res : string) : string :=
  match acc with
  | EmptyString => res
  | String c acc' => rev_onto acc' (String c res)
  end.

(** The scan of [s.split(sep)] for a non-empty [sep].  [acc] holds, in
    reverse, the code units of the piece being read; [skip] counts the code
    units of a separator just recognised that are still to be passed
    over. *)
Fixpoint split_scan (sep : string) (skip : nat) (acc : string) (s : string)
  : list string :=
  match s with
  | EmptyString => [rev_onto acc EmptyString]
  | String c s' =>
      match skip with
      | S n => split_scan sep n acc s'
      | O =>
          if startsWith sep s
          then rev_onto acc EmptyString
                 :: split_scan sep (String.length sep - 1) EmptyString s'
          else split_scan sep O (String c acc) s'
      end
  end.

(** The pieces of [s.split('')]: one string per code unit. *)
Fixpoint chars (s : string) : list string :=
  match s with
  | EmptyString => []
  | String c s' => String c EmptyString :: chars s'
  end.

(** [s.split(sep)] *)
Definition split (sep s : string) : list string :=
  match sep with
  | EmptyString => chars s
  | String _ _ => split_scan sep O EmptyString s
  end.

(** [l.join(sep)] for an array of strings. *)
Fixpoint join (sep : string) (l : list string) : string :=
  match l with
  | [] => EmptyString
  | [x] => x
  | x :: rest => x +:+ sep +:+ join sep rest
  end.

(** White space and line terminators among the code units below 256:
    TAB, LF, VT, FF, CR, SP and NBSP. *)
Definition is_white (c : ascii) : bool :=
  let n := nat_of_ascii c in
  (Nat.leb 9 n && Nat.leb n 13 || Nat.eqb n 32 || Nat.eqb n 160)%bool.

(** [s.trimLeft()] *)
Fixpoint trimLeft (s : string) : string :=
  match s with
  | EmptyString => EmptyString
  | String c s' => if is_white c then trimLeft s' else s
  end.

(** [s.endsWith(p)]: [p] is [s] or ends a shorter tail of [s]. *)
Fixpoint endsWith (p s : string) : bool :=
  match s with
  | EmptyString => bool_decide (p = EmptyString)
  | String _ s' => (bool_decide (p = s) || endsWith p s')%bool
  end.

(** The text ends with a line feed that no other line feed precedes. *)
Definition one_trailing_newline (s : string) : bool :=
  (endsWith LF s && negb (endsWith (LF +:+ LF) s))%bool.

(** [String(n)] for an integer [n]. *)
Definition string_of_Z (z : Z) : string :=
  DecimalString.NilZero.string_of_int (Z.to_int z).

(** A template-literal or [+] conversion of a value that may be
    [undefined]: [`${x}`]. *)
Definition string_of_undefinable (x : option string) : string :=
  match x with
  | Some s => s
  | None => "undefined"
  end.

(** A conversion of a value that may be [null]: ['' + code]. *)
Definition string_of_nullable_Z (x : option Z) : string :=
  match x with
  | Some z => string_of_Z z
  | None => "null"
  end.

(** ** JSON values and [JSON.stringify(value, undefined, 2)] *)

(** The values that are serialised here: [null], booleans, strings, arrays
    and plain objects.  Numbers are left out: the manifest that the script
    serialises holds none, and how one prints depends on its double. *)
Inductive json : Type :=
| JNull
| JBool (b : bool)
| JStr (s : string)
| JArr (items : list json)
| JObj (fields : list (string * json)).

Definition hex_digit (n : nat) : ascii :=
  ascii_of_nat (if Nat.ltb n 10 then 48 + n else 87 + n).

(** The double quote and the backslash, as one-character strings. *)
Definition DQ : string := String (ascii_of_nat 34) EmptyString.
Definition BSL : string := String (ascii_of_nat 92) EmptyString.

(** The escape of one code unit inside a JSON string literal. *)
Definition json_escape (c : ascii) : string :=
  let n := nat_of_ascii c in
  if Nat.eqb n 34 then BSL +:+ DQ
  else if Nat.eqb n 92 then BSL +:+ BSL
  else if Nat.eqb n 8 then BSL +:+ "b"
  else if Nat.eqb n 9 then BSL +:+ "t"
  else if Nat.eqb n 10 then BSL +:+ "n"
  else if Nat.eqb n 12 then BSL +:+ "f"
  else if Nat.eqb n 13 then BSL +:+ "r"
  else if Nat.ltb n 32
       then BSL +:+ "u00"
              +:+ String (hex_digit (Nat.div n 16))
                    (String (hex_digit (Nat.modulo n 16)) EmptyString)
  else String c EmptyString.

Fixpoint json_escape_all (s : string) : string :=
  match s with
  | EmptyString => EmptyString
  | String c s' => json_escape c +:+ json_escape_all s'
  end.

(** [JSON.stringify(s)] for a string [s]. *)
Definition json_quote (s : string) : string := DQ +:+ json_escape_all s +:+ DQ.

(** The serialisation of a value that sits at indentation [indent], with
    the gap of two spaces that the third argument [2] asks for. *)
Fixpoint stringify_at (indent : string) (j : json) : string :=
  let inner := indent +:+ "  " in
  match j with
  | JNull => "null"
  | JBool true => "true"
  | JBool false => "false"
  | JStr s => json_quote s
  | JArr [] => "[]"
  | JArr items =>
      "[" +:+ LF
        +:+ join ("," +:+ LF)
              (List.map (fun v => inner +:+ stringify_at inner v) items)
        +:+ LF +:+ indent +:+ "]"
  | JObj [] => "{}"
  | JObj fields =>
      "{" +:+ LF
        +:+ join ("," +:+ LF)
              (List.map (fun kv => inner +:+ json_quote (fst kv) +:+ ": "
                                     +:+ stringify_at inner (snd kv)) fields)
        +:+ LF +:+ indent +:+ "}"
  end.

(** [JSON.stringify(value, undefined, 2)] *)
Definition stringify (j : json) : string := stringify_at EmptyString j.

(** Property access on a JSON object: [o[key]]. *)
Fixpoint field (key : string) (fields : list (string * json)) : option json :=
  match fields with
  | [] => None
  | (k, v) :: rest => if decide (k = key) then Some v else field key rest
  end.

Definition get (key : string) (j : json) : option json :=
  match j with
  | JObj fields => field key fields
  | _ => None
  end.

(** ** Thrown values *)

(** The values the script can see thrown: an [Error] it builds itself, the
    [TypeError] of a method call on [undefined], and whatever a host
    function (the file system, [require], a child process) rejects with. *)
Inductive error : Type :=
| Error (message : string)
| TypeErrorOnUndefined (method : string)
| HostError (code : string).

Inductive result (A : Type) : Type :=
| Ok (a : A)
| Throw (e : error).
Arguments Ok {A} a.
Arguments Throw {A} e.

End Js.

(* ===================================================================== *)
(** * Effect trees *)
(* ===================================================================== *)

Module Eff.
Import Js.

Section Trees.
Context {E : Type -> Type}.

(** A program is a finite tree: it returns, or it asks the outside world
    for [e] and goes on with the answer. *)
Inductive prog (R : Type) : Type :=
| Ret (r : R)
| Vis {X : Type} (e : E X) (k : X -> prog R).
Arguments Ret {R} r.
Arguments Vis {R X} e k.

Fixpoint seq {A B : Type} (m : prog A) (k : A -> prog B) : prog B :=
  match m with
  | Ret a => k a
  | Vis e c => Vis e (fun x => seq (c x) k)
  end.

(** Sequencing of two asynchronous steps with [await]: a thrown value
    skips what follows. *)
Definition bind {A B : Type} (m : prog (result A)) (k : A -> prog (result B))
  : prog (result B) :=
  seq m (fun r => match r with Ok a => k a | Throw e => Ret (Throw e) end).

Definition ret {A : Type} (a : A) : prog (result A) := Ret (Ok a).
Definition throw {A : Type} (e : error) : prog (result A) := Ret (Throw e).

(** A call of a host function that may reject. *)
Definition perform {A : Type} (e : E (result A)) : prog (result A) := Vis e Ret.

(** A call of a host function that cannot reject. *)
Definition ask {A : Type} (e : E A) : prog (result A) := Vis e (fun x => Ret (Ok x)).

(** [for (const x of xs) { await body(x) }] *)
Fixpoint for_of {A : Type} (xs : list A) (body : A -> prog (result unit))
  : prog (result unit) :=
  match xs with
  | [] => ret tt
  | x :: rest => bind (body x) (fun _ => for_of rest body)
  end.

(** One observation: a request and the answer it received. *)
Inductive obs : Type :=
| Obs {X : Type} (e : E X) (x : X).

(** The outside world, with a state of its own. *)
Definition handler (S : Type) : Type := forall X : Type, E X -> S -> X * S.

(** Running a program against a world: the returned value, the final
    state of the world and the observations in the order they happened. *)
Fixpoint run {S R : Type} (h : handler S) (p : prog R) (s : S)
  : R * S * list obs :=
  match p with
  | Ret r => (r, s, [])
  | Vis e k =>
      let '(x, s1) := h _ e s in
      let '(r, s2, tr) := run h (k x) s1 in
      (r, s2, Obs e x :: tr)
  end.

(** A property of every request of a program together with the way the
    program goes on from it. *)
Fixpoint every_node {R : Type}
    (Q : forall X : Type, E X -> (X -> prog R) -> Prop) (p : prog R) : Prop :=
  match p with
  | Ret _ => True
  | Vis e k => Q _ e k /\ forall x, every_node Q (k x)
  end.

(** The state of the world after the observations [tr], from [s] on. *)
Fixpoint state_after {S : Type} (h : handler S) (tr : list obs) (s : S) : S :=
  match tr with
  | [] => s
  | Obs e _ :: rest => state_after h rest (h _ e s).2
  end.

(** What an observation [o] followed by [post] says about a run that
    ended in [(r, s')], when every request obeys [Q] and [s1] is the state
    of the world right after [o]. *)
Definition explained {S R : Type} (h : handler S)
    (Q : forall X : Type, E X -> (X -> prog R) -> Prop)
    (o : obs) (post : list obs) (r : R) (s' s1 : S) : Prop :=
  match o with
  | Obs e x => exists k, Q _ e k /\ run h (k x) s1 = (r, s', post)
  end.
End Trees.

Arguments prog : clear implicits.
Arguments obs : clear implicits.
Arguments handler : clear implicits.
Arguments Ret {E R} r.
Arguments Vis {E R X} e k.

Module Notations.
Notation "'let*' x ':=' m 'in' k" := (bind m (fun x => k))
  (at level 10, x name, m at level 100, k at level 200, only parsing).
Notation "'do*' m 'in' k" := (bind m (fun _ => k))
  (at level 10, m at level 100, k at level 200, only parsing).
End Notations.

End Eff.

(* ===================================================================== *)
(** * The Node.js host: paths, the file system, child processes *)
(* ===================================================================== *)

Module Node.
Import Js Eff.

(** The functions of the [path] module that the script calls. *)
Class Path : Type := {
  join : list string -> string;
  basename : string -> string;
  dirname : string -> string
}.

(** How a spawned child ends: the ['error'] event with its argument, or the
    ['exit'] event with its code ([null] when a signal ended the child). *)
Inductive child_outcome : Type :=
| ChildError (e : error)
| ChildExit (code : option Z).

(** The requests of the script to its host. *)
Inductive sysE : Type -> Type :=
| RequirePackageVersion : sysE (result string)
| Namespaces : sysE (result (list string))
| PathExists (path : string) : sysE bool
| Mkdirp (dir : string) : sysE (result unit)
| WriteFile (path data : string) : sysE (result unit)
| Readdir (dir : string) : sysE (result (list string))
| Copy (src dest : string) : sysE (result unit)
| ResolveLerna : sysE (result string)
| Spawn (command : string) : sysE child_outcome
| ConsoleLog (line : string) : sysE unit
| ConsoleError (e : error) : sysE unit.

(** ** The POSIX [path] module *)

Module Posix.

Definition slash : ascii := ascii_of_nat 47.

(** [normalizeString]: the segments of a path with [.] and empty
    segments dropped and [..] resolved against what precedes it; [out]
    holds the kept segments, last one first. *)
Fixpoint normalize_segments (allowAboveRoot : bool) (out segs : list string)
  : list string :=
  match segs with
  | [] => List.rev out
  | seg :: rest =>
      if decide (seg = EmptyString) then normalize_segments allowAboveRoot out rest
      else if decide (seg = ".") then normalize_segments allowAboveRoot out rest
      else if decide (seg = "..") then
        match out with
        | last :: out' =>
            if decide (last = "..")
            then normalize_segments allowAboveRoot (seg :: out) rest
            else normalize_segments allowAboveRoot out' rest
        | [] =>
            if allowAboveRoot
            then normalize_segments allowAboveRoot [seg] rest
            else normalize_segments allowAboveRoot [] rest
        end
      else normalize_segments allowAboveRoot (seg :: out) rest
  end.

Definition normalize (path : string) : string :=
  match path with
  | EmptyString => "."
  | String _ _ =>
      let isAbsolute := startsWith "/" path in
      let trailingSeparator := endsWith "/" path in
      let body := Js.join "/" (normalize_segments (negb isAbsolute) [] (split "/" path)) in
      let body := if decide (body = EmptyString)
                  then (if isAbsolute then body else ".")
                  else body in
      let body := if decide (body = EmptyString)
                  then body
                  else (if trailingSeparator then body +:+ "/" else body) in
      if isAbsolute then "/" +:+ body else body
  end.

Definition join (parts : list string) : string :=
  match List.filter (fun part => negb (bool_decide (part = EmptyString))) parts with
  | [] => "."
  | kept => normalize (Js.join "/" kept)
  end.

Fixpoint last_nonempty (segs : list string) (found : string) : string :=
  match segs with
  | [] => found
  | seg :: rest =>
      last_nonempty rest (if decide (seg = EmptyString) then found else seg)
  end.

Definition basename (path : string) : string :=
  last_nonempty (split "/" path) EmptyString.

Fixpoint drop_slashes (s : string) : string :=
  match s with
  | String c s' => if decide (c = slash) then drop_slashes s' else s
  | EmptyString => EmptyString
  end.

Fixpoint drop_segment (s : string) : string :=
  match s with
  | String c s' => if decide (c = slash) then s else drop_segment s'
  | EmptyString => EmptyString
  end.

(** [dirname]: the scan runs from the end of the path down to index 1,
    so it is written over the reversed tail of the path. *)
Definition dirname (path : string) : string :=
  match path with
  | EmptyString => "."
  | String first tail =>
      let hasRoot := bool_decide (first = slash) in
      match drop_segment (drop_slashes (rev_onto tail EmptyString)) with
      | EmptyString => if hasRoot then "/" else "."
      | String _ EmptyString =>
          if hasRoot then "//" else String first EmptyString
      | String _ before => String first (rev_onto before EmptyString)
      end
  end.

Definition path : Path :=
  {| Node.join := join; Node.basename := basename; Node.dirname := dirname |}.

End Posix.

(** ** An in-memory host *)

Inductive node : Type :=
| Dir
| File (data : string).

Record World : Type := {
  fs : gmap string node;
  package_version : result string;
  cfn_namespaces : result (list string);
  lerna_package_json : result string;
  child : string -> child_outcome;
  spawned : list string;
  stdout : list string;
  stderr : list error
}.

Definition with_fs (w : World) (fs' : gmap string node) : World :=
  {| fs := fs'; package_version := package_version w;
     cfn_namespaces := cfn_namespaces w;
     lerna_package_json := lerna_package_json w; child := child w;
     spawned := spawned w; stdout := stdout w; stderr := stderr w |}.

(** The directory [dir] and the directories above it, nearest first. *)
Fixpoint ancestors (fuel : nat) (dir : string) : list string :=
  match fuel with
  | O => [dir]
  | S n =>
      let up := Posix.dirname dir in
      if decide (up = dir) then [dir] else dir :: ancestors n up
  end.

Definition is_file (fs : gmap string node) (path : string) : bool :=
  match fs !! path with
  | Some (File _) => true
  | _ => false
  end.

Definition mkdirp (fs : gmap string node) (dir : string)
  : result (gmap string node) :=
  let dirs := ancestors (String.length dir) dir in
  if is_file fs dir then Throw (HostError "EEXIST")
  else if existsb (is_file fs) dirs then Throw (HostError "ENOTDIR")
  else Ok (foldr (fun d m => <[d := Dir]> m) fs dirs).

Definition writeFile (fs : gmap string node) (path data : string)
  : result (gmap string node) :=
  match fs !! path, fs !! Posix.dirname path with
  | Some Dir, _ => Throw (HostError "EISDIR")
  | _, Some Dir => Ok (<[path := File data]> fs)
  | _, Some (File _) => Throw (HostError "ENOTDIR")
  | _, None => Throw (HostError "ENOENT")
  end.

Definition readdir (fs : gmap string node) (dir : string) : result (list string) :=
  match fs !! dir with
  | Some Dir =>
      Ok (omap (fun entry =>
                  if bool_decide (Posix.dirname entry.1 = dir ∧ entry.1 ≠ dir)
                  then Some (Posix.basename entry.1) else None)
               (map_to_list fs))
  | Some (File _) => Throw (HostError "ENOTDIR")
  | None => Throw (HostError "ENOENT")
  end.

(** The part of [path] below [src], when [path] is [src] or lies under it. *)
Fixpoint below (src path : string) : option string :=
  match src, path with
  | EmptyString, EmptyString => Some EmptyString
  | EmptyString, String c _ => if decide (c = Posix.slash) then Some path else None
  | String a src', String b path' => if decide (a = b) then below src' path' else None
  | String _ _, EmptyString => None
  end.

(** One entry of a recursive copy: a file never replaces a directory, nor
    a directory a file. *)
Definition copy_entry (src dest : string) (entry : string * node)
    (acc : result (gmap string node)) : result (gmap string node) :=
  match acc with
  | Throw e => Throw e
  | Ok m =>
      match below src entry.1 with
      | None => Ok m
      | Some rest =>
          match entry.2, m !! (dest +:+ rest) with
          | File _, Some Dir => Throw (HostError "EISDIR")
          | Dir, Some (File _) => Throw (HostError "ENOTDIR")
          | n, _ => Ok (<[dest +:+ rest := n]> m)
          end
      end
  end.

Definition copy (fs : gmap string node) (src dest : string)
  : result (gmap string node) :=
  match fs !! src with
  | None => Throw (HostError "ENOENT")
  | Some _ =>
      match mkdirp fs (Posix.dirname dest) with
      | Throw e => Throw e
      | Ok fs1 => foldr (copy_entry src dest) (Ok fs1) (map_to_list fs)
      end
  end.

Definition settle (w : World) (r : result (gmap string node))
  : result unit * World :=
  match r with
  | Ok fs' => (Ok tt, with_fs w fs')
  | Throw e => (Throw e, w)
  end.

Definition world : handler sysE World :=
  fun X e =>
    match e in sysE X return World -> X * World with
    | RequirePackageVersion => fun w => (package_version w, w)
    | Namespaces => fun w => (cfn_namespaces w, w)
    | PathExists path => fun w => (bool_decide (is_Some (fs w !! path)), w)
    | Mkdirp dir => fun w => settle w (mkdirp (fs w) dir)
    | WriteFile path data => fun w => settle w (writeFile (fs w) path data)
    | Readdir dir => fun w => (readdir (fs w) dir, w)
    | Copy src dest => fun w => settle w (copy (fs w) src dest)
    | ResolveLerna => fun w => (lerna_package_json w, w)
    | Spawn command => fun w =>
        (child w command,
         {| fs := fs w; package_version := package_version w;
            cfn_namespaces := cfn_namespaces w;
            lerna_package_json := lerna_package_json w; child := child w;
            spawned := spawned w ++ [command]; stdout := stdout w;
            stderr := stderr w |})
    | ConsoleLog line => fun w =>
        (tt,
         {| fs := fs w; package_version := package_version w;
            cfn_namespaces := cfn_namespaces w;
            lerna_package_json := lerna_package_json w; child := child w;
            spawned := spawned w; stdout := stdout w ++ [line];
            stderr := stderr w |})
    | ConsoleError e => fun w =>
        (tt,
         {| fs := fs w; package_version := package_version w;
            cfn_namespaces := cfn_namespaces w;
            lerna_package_json := lerna_package_json w; child := child w;
            spawned := spawned w; stdout := stdout w;
            stderr := stderr w ++ [e] |})
    end.

End Node.

(* ===================================================================== *)
(** * BaseScalableAttribute *)
(* ===================================================================== *)

Module Facade.
Import Js Eff Eff.Notations.

Section Construct.
(** The types the class takes from [@aws-cdk/cdk], [@aws-cdk/aws-iam] and
    its sibling modules. *)
Context {Construct IRole ServiceNamespace ScalableTarget : Type}.
Context {ScalingSchedule BasicStepScalingPolicyProps
         BasicTargetTrackingScalingPolicyProps : Type}.

Record EnableScalingProps : Type := {
  minCapacity : option Z;
  maxCapacity : Z
}.

Record BaseScalableAttributeProps : Type := {
  scaling : EnableScalingProps;
  serviceNamespace : ServiceNamespace;
  resourceId : string;
  dimension : string;
  role : IRole
}.

(** The properties handed to [new ScalableTarget]. *)
Record ScalableTargetProps : Type := {
  target_serviceNamespace : ServiceNamespace;
  target_scalableDimension : string;
  target_resourceId : string;
  target_role : IRole;
  target_minCapacity : Z;
  target_maxCapacity : Z
}.

(** The calls that leave the class: the constructor of the base class,
    the constructor of [ScalableTarget] and its three methods. *)
Inductive targetE : Type -> Type :=
| ConstructSuper (parent : Construct) (id : string) : targetE (result Construct)
| NewScalableTarget (scope : Construct) (id : string) (props : ScalableTargetProps)
    : targetE (result ScalableTarget)
| TargetScaleOnSchedule (target : ScalableTarget) (id : string)
    (props : ScalingSchedule) : targetE (result unit)
| TargetScaleOnMetric (target : ScalableTarget) (id : string)
    (props : BasicStepScalingPolicyProps) : targetE (result unit)
| TargetScaleToTrackMetric (target : ScalableTarget) (id : string)
    (props : BasicTargetTrackingScalingPolicyProps) : targetE (result unit).

Record BaseScalableAttribute : Type := {
  this : Construct;
  props : BaseScalableAttributeProps;
  target : ScalableTarget
}.

Definition constructor (parent : Construct) (id : string)
    (props : BaseScalableAttributeProps)
  : prog targetE (result BaseScalableAttribute) :=
  let* this := perform (ConstructSuper parent id) in
  let* target :=
    perform (NewScalableTarget this "Target"
      {| target_serviceNamespace := serviceNamespace props;
         target_scalableDimension := dimension props;
         target_resourceId := resourceId props;
         target_role := role props;
         target_minCapacity :=
           match minCapacity (scaling props) with
           | Some given => given
           | None => 1%Z
           end;
         target_maxCapacity := maxCapacity (scaling props) |}) in
  ret {| this := this; props := props; target := target |}.

Definition scaleOnSchedule (self : BaseScalableAttribute) (id : string)
    (props : ScalingSchedule) : prog targetE (result unit) :=
  perform (TargetScaleOnSchedule (target self) id props).

Definition scaleOnMetric (self : BaseScalableAttribute) (id : string)
    (props : BasicStepScalingPolicyProps) : prog targetE (result unit) :=
  perform (TargetScaleOnMetric (target self) id props).

Definition scaleToTrackMetric (self : BaseScalableAttribute) (id : string)
    (props : BasicTargetTrackingScalingPolicyProps) : prog targetE (result unit) :=
  perform (TargetScaleToTrackMetric (target self) id props).

(** The properties of a [new ScalableTarget] request. *)
Definition new_target_props (o : obs targetE) : option ScalableTargetProps :=
  match o with
  | Obs e _ =>
      match e with
      | NewScalableTarget _ _ props => Some props
      | _ => None
      end
  end.

(** A test double for the outside: it accepts every call and keeps no
    state; constructors answer with the handles it was given. *)
Definition accept_all (fresh : Construct) (made : ScalableTarget)
  : handler targetE unit :=
  fun X e =>
    match e in targetE X return unit -> X * unit with
    | ConstructSuper _ _ => fun s => (Ok fresh, s)
    | NewScalableTarget _ _ _ => fun s => (Ok made, s)
    | TargetScaleOnSchedule _ _ _ => fun s => (Ok tt, s)
    | TargetScaleOnMetric _ _ _ => fun s => (Ok tt, s)
    | TargetScaleToTrackMetric _ _ _ => fun s => (Ok tt, s)
    end.
End Construct.

Arguments targetE : clear implicits.
Arguments BaseScalableAttribute : clear implicits.
Arguments BaseScalableAttributeProps : clear implicits.
Arguments ScalableTargetProps : clear implicits.

End Facade.

(* ===================================================================== *)
(** * The module scaffolder *)
(* ===================================================================== *)

Module Scaffolder.
Import Js Eff Eff.Notations Node.

(** What [write] may be handed.  Its parameter has the type
    [string[] | string | object]: a string, an array (each element stands
    for its string conversion, which is what [join] uses) or a plain object.
    [COther] is any value that reaches the last branch, one whose [typeof]
    is neither ['string'] nor ['object']; only its string conversion
    matters. *)
Inductive contents : Type :=
| CString (s : string)
| CArray (lines : list string)
| CObject (fields : list (string * json))
| COther (shown : string).

(** The [data] of [write], by the shape of its argument. *)
Definition data_of (c : contents) : result string :=
  match c with
  | CString s => Ok (trimLeft s)
  | CArray lines => Ok (Js.join LF lines)
  | CObject fields => Ok (stringify (JObj fields))
  | COther shown => Throw (Error ("Invalid type of contents: " +:+ shown))
  end.

(** A method call [receiver.method()] on a value that may be [undefined]. *)
Definition call_on (receiver : option string) (method : string)
    (f : string -> string) : result string :=
  match receiver with
  | Some s => Ok (f s)
  | None => Throw (TypeErrorOnUndefined method)
  end.

Definition lift {A : Type} (r : result A) : prog sysE (result A) := Ret r.

(** [exec] *)
Definition exec (command : string) : prog sysE (result unit) :=
  Vis (Spawn command) (fun outcome =>
    match outcome with
    | ChildError e => throw e
    | ChildExit code =>
        if decide (code = Some 0%Z) then ret tt
        else throw (Error ("non-zero exit code: " +:+ string_of_nullable_Z code))
    end).

Definition javaGroupId : string := "software.amazon.awscdk".

Definition gitignore : list string :=
  [ "*.d.ts"; "*.generated.ts"; "*.js"; "*.js.map"; "*.snk"; ".jsii";
    ".LAST_BUILD"; ".LAST_PACKAGE"; ".nycrc"; ".nyc_output"; "coverage";
    "dist"; "tsconfig.json"; "tslint.json" ].

Definition npmignore : list string :=
  [ "# The basics"; "*.ts"; "*.tgz"; "*.snk"; "!*.d.ts"; "!*.js"; EmptyString;
    "# Coverage"; "coverage"; ".nyc_output"; ".nycrc"; EmptyString;
    "# Build gear"; "dist"; ".LAST_BUILD"; ".LAST_PACKAGE"; ".jsii" ].

Definition test_ts : list string :=
  [ "import { Test, testCase } from 'nodeunit';";
    "import {} from '../lib';";
    EmptyString;
    "export = testCase({";
    "    notTested(test: Test) {";
    "        test.ok(true, 'No tests are specified for this package.');";
    "        test.done();";
    "    }";
    "});" ].

Definition index_ts (namespace lowcaseModuleName : string) : list string :=
  [ "// " +:+ namespace +:+ " CloudFormation Resources:";
    "export * from './" +:+ lowcaseModuleName +:+ ".generated';" ].

Definition readme (namespace lowcaseModuleName packageName : string) : list string :=
  [ "## " +:+ namespace +:+ " Construct Library";
    EmptyString;
    "This module is part of the [AWS Cloud Development Kit](https://github.com/awslabs/aws-cdk) project.";
    EmptyString;
    "```ts";
    "import " +:+ lowcaseModuleName +:+ " = require('" +:+ packageName +:+ "');";
    "```" ].

(** The object literal written to [package.json]. *)
Definition package_json
    (packageName version namespace moduleName dotnetPackage javaPackage
     javaArtifactId : string) : list (string * json) :=
  [ ("name", JStr packageName);
    ("version", JStr version);
    ("description", JStr ("The CDK Construct Library for " +:+ namespace));
    ("main", JStr "lib/index.js");
    ("types", JStr "lib/index.d.ts");
    ("jsii", JObj
       [ ("outdir", JStr "dist");
         ("targets", JObj
            [ ("dotnet", JObj
                 [ ("namespace", JStr dotnetPackage);
                   ("packageId", JStr dotnetPackage);
                   ("signAssembly", JBool true);
                   ("assemblyOriginatorKeyFile", JStr "../../key.snk") ]);
              ("java", JObj
                 [ ("package", JStr (javaGroupId +:+ "." +:+ javaPackage));
                   ("maven", JObj
                      [ ("groupId", JStr javaGroupId);
                        ("artifactId", JStr javaArtifactId) ]) ]);
              ("sphinx", JObj []) ]) ]);
    ("repository", JObj
       [ ("type", JStr "git");
         ("url", JStr "https://github.com/awslabs/aws-cdk.git") ]);
    ("homepage", JStr "https://github.com/awslabs/aws-cdk");
    ("scripts", JObj
       [ ("build", JStr "cdk-build");
         ("integ", JStr "cdk-integ");
         ("lint", JStr "cdk-lint");
         ("package", JStr "cdk-package");
         ("pkglint", JStr "pkglint -f");
         ("test", JStr "cdk-test");
         ("watch", JStr "cdk-watch");
         ("cfn2ts", JStr "cfn2ts") ]);
    ("cdk-build", JObj [ ("cloudformation", JStr namespace) ]);
    ("keywords", JArr
       [ JStr "aws"; JStr "cdk"; JStr "constructs"; JStr namespace;
         JStr moduleName ]);
    ("author", JObj
       [ ("name", JStr "Amazon Web Services");
         ("url", JStr "https://aws.amazon.com");
         ("organization", JBool true) ]);
    ("license", JStr "Apache-2.0");
    ("devDependencies", JObj
       [ ("@aws-cdk/assert", JStr ("^" +:+ version));
         ("cdk-build-tools", JStr ("^" +:+ version));
         ("cfn2ts", JStr ("^" +:+ version));
         ("pkglint", JStr ("^" +:+ version)) ]);
    ("dependencies", JObj [ ("@aws-cdk/cdk", JStr ("^" +:+ version)) ]);
    ("peerDependencies", JObj [ ("@aws-cdk/cdk", JStr ("^" +:+ version)) ]);
    ("engines", JObj [ ("node", JStr ">= 8.10.0") ]) ].

Section Script.
Context {path : Path}.
(** The directory of the script file. *)
Variable __dirname : string.

Definition root : string := join [__dirname; ".."; ".."].

Definition wrong_root : error :=
  Error ("Something went wrong. We expected " +:+ root +:+ " to be the "
           +:+ DQ +:+ "packages/@aws-cdk" +:+ DQ
           +:+ " directory. Did you move me?").

(** The two names that the destructuring of [namespace.split('::')]
    binds; either may be [undefined]. *)
Definition moduleFamily (namespace : string) : option string :=
  split "::" namespace !! 0%nat.
Definition moduleBaseName (namespace : string) : option string :=
  split "::" namespace !! 1%nat.

Definition moduleName (namespace : string) : string :=
  toLocaleLowerCase
    (string_of_undefinable (moduleFamily namespace) +:+ "-"
       +:+ string_of_undefinable (moduleBaseName namespace)).

Definition pacakgePath (namespace : string) : string :=
  join [root; moduleName namespace].

Definition packageName (namespace : string) : string :=
  "@aws-cdk/" +:+ moduleName namespace.

Definition dotnetPackage (namespace : string) : string :=
  "Amazon.CDK." +:+ string_of_undefinable (moduleFamily namespace) +:+ "."
    +:+ string_of_undefinable (moduleBaseName namespace).

Definition javaPackage (moduleFamily : option string) (lowcaseModuleName : string)
  : result string :=
  if decide (moduleFamily = Some "AWS")
  then Ok ("services." +:+ lowcaseModuleName)
  else match call_on moduleFamily "toLocaleLowerCase" toLocaleLowerCase with
       | Ok family => Ok (family +:+ "." +:+ lowcaseModuleName)
       | Throw e => Throw e
       end.

Definition javaArtifactId (moduleFamily : option string) (lowcaseModuleName : string)
  : result string :=
  if decide (moduleFamily = Some "AWS")
  then Ok lowcaseModuleName
  else match call_on moduleFamily "toLocaleLowerCase" toLocaleLowerCase with
       | Ok family => Ok (family +:+ "-" +:+ lowcaseModuleName)
       | Throw e => Throw e
       end.

(** [write], the helper declared inside the loop body; [pacakgePath] is
    the variable it closes over. *)
Definition write (pacakgePath relativePath : string) (c : contents)
  : prog sysE (result unit) :=
  let fullPath := join [pacakgePath; relativePath] in
  let dir := dirname fullPath in
  do* perform (Mkdirp dir) in
  let* data := lift (data_of c) in
  perform (WriteFile fullPath (data +:+ LF)).

(** The body of the loop over the namespaces, from the existence check
    on: what runs when the module is missing. *)
Definition generate (version namespace : string) : prog sysE (result unit) :=
  let pacakgePath := pacakgePath namespace in
  let* lowcaseModuleName :=
    lift (call_on (moduleBaseName namespace) "toLocaleLowerCase" toLocaleLowerCase) in
  let packageName := packageName namespace in
  let dotnetPackage := dotnetPackage namespace in
  let* javaPackage := lift (javaPackage (moduleFamily namespace) lowcaseModuleName) in
  let* javaArtifactId :=
    lift (javaArtifactId (moduleFamily namespace) lowcaseModuleName) in
  do* ask (ConsoleLog ("generating module for " +:+ packageName +:+ "...")) in
  do* write pacakgePath "package.json"
        (CObject (package_json packageName version namespace (moduleName namespace)
                    dotnetPackage javaPackage javaArtifactId)) in
  do* write pacakgePath ".gitignore" (CArray gitignore) in
  do* write pacakgePath ".npmignore" (CArray npmignore) in
  do* write pacakgePath "lib/index.ts" (CArray (index_ts namespace lowcaseModuleName)) in
  do* write pacakgePath ("test/test." +:+ lowcaseModuleName +:+ ".ts") (CArray test_ts) in
  do* write pacakgePath "README.md"
        (CArray (readme namespace lowcaseModuleName packageName)) in
  let templateDir := join [__dirname; "template"] in
  let* files := perform (Readdir templateDir) in
  do* for_of files (fun file =>
        perform (Copy (join [templateDir; file]) (join [pacakgePath; file]))) in
  let* resolved := perform ResolveLerna in
  let lerna := join [dirname resolved; "cli.js"] in
  do* exec (lerna +:+ " bootstrap --scope " +:+ packageName) in
  exec (lerna +:+ " run --include-filtered-dependencies --progress build --scope "
          +:+ packageName).

(** The body of the loop: [continue] when the module is there. *)
Definition iteration (version namespace : string) : prog sysE (result unit) :=
  let* present := ask (PathExists (pacakgePath namespace)) in
  if (present : bool) then ret tt else generate version namespace.

(** [main] *)
Definition main : prog sysE (result unit) :=
  if decide (basename root ≠ "@aws-cdk") then throw wrong_root
  else
    let* version := perform RequirePackageVersion in
    let* namespaces := perform Namespaces in
    for_of namespaces (iteration version).

(** [main().catch(e => { console.error(e); process.exit(1); })]: the
    value returned is the exit status of the process. *)
Definition script : prog sysE Z :=
  seq main (fun r =>
    match r with
    | Ok _ => Ret 0%Z
    | Throw e => Vis (ConsoleError e) (fun _ => Ret 1%Z)
    end).
End Script.

(** ** Reading a trace *)

(** Requests that change the file system, that start a child process,
    that ask whether a path exists, that print an error. *)
Definition is_fs_write (o : obs sysE) : bool :=
  match o with
  | Obs e _ =>
      match e with
      | Mkdirp _ | WriteFile _ _ | Copy _ _ => true
      | _ => false
      end
  end.

Definition is_spawn (o : obs sysE) : bool :=
  match o with
  | Obs e _ => match e with Spawn _ => true | _ => false end
  end.

Definition is_check (o : obs sysE) : bool :=
  match o with
  | Obs e _ => match e with PathExists _ => true | _ => false end
  end.

Definition is_console_error (o : obs sysE) : bool :=
  match o with
  | Obs e _ => match e with ConsoleError _ => true | _ => false end
  end.

(** The file and the data of a [writeFile] request. *)
Definition written_by (o : obs sysE) : option (string * string) :=
  match o with
  | Obs e _ =>
      match e with
      | WriteFile path data => Some (path, data)
      | _ => None
      end
  end.

Definition written (tr : list (obs sysE)) : list (string * string) :=
  omap written_by tr.

(** The directory of a [mkdirp] request that succeeded. *)
Definition made_dir (o : obs sysE) : option string :=
  match o with
  | Obs e x =>
      match e in sysE X return X -> option string with
      | Mkdirp dir => fun x => match x with Ok _ => Some dir | Throw _ => None end
      | _ => fun _ => None
      end x
  end.

(** The message of the error that [exec] rejects with. *)
Definition exit_message (code : option Z) : string :=
  "non-zero exit code: " +:+ string_of_nullable_Z code.

(** The value [exec] rejects with, if it rejects. *)
Definition exec_failure (outcome : child_outcome) : option error :=
  match outcome with
  | ChildError e => Some e
  | ChildExit code =>
      if decide (code = Some 0%Z) then None else Some (Error (exit_message code))
  end.

(** ** The shape of the script's tree *)

Definition starts_with_spawn {R : Type} (p : prog sysE R) : Prop :=
  match p with
  | Vis e _ => match e with Spawn _ => True | _ => False end
  | Ret _ => False
  end.

Definition starts_with_check {R : Type} (p : prog sysE R) : Prop :=
  match p with
  | Vis e _ => match e with PathExists _ => True | _ => False end
  | Ret _ => False
  end.

Section Rule.
Context {R : Type}.
(** How the program may go on after a child that exited with 0, after a
    path that exists, after a child that failed; and whether it may print
    an error at all. *)
Variables (resume skip : prog sysE R -> Prop) (abort : error -> prog sysE R).
Variable console : Prop.

Definition rule : forall X : Type, sysE X -> (X -> prog sysE R) -> Prop :=
  fun X e =>
    match e in sysE X return (X -> prog sysE R) -> Prop with
    | Spawn _ => fun k =>
        forall outcome,
          match exec_failure outcome with
          | None => resume (k outcome)
          | Some e => k outcome = abort e
          end
    | PathExists _ => fun k => skip (k true)
    | WriteFile _ data => fun _ => one_trailing_newline data = true
    | ConsoleError _ => fun _ => console
    | _ => fun _ => True
    end.
End Rule.

(** A program without children, existence checks and printed errors. *)
Definition plain {A : Type} : forall X : Type, sysE X -> (X -> prog sysE (result A)) -> Prop :=
  rule (fun _ => False) (fun _ => False) throw False.

(** A request that is not a [writeFile]. *)
Definition no_write (X : Type) (e : sysE X) : Prop :=
  match e with WriteFile _ _ => False | _ => True end.

(** What [write] may be handed for the file to end in one newline. *)
Definition ends_a_line (c : contents) : Prop :=
  forall data, data_of c = Ok data -> one_trailing_newline (data +:+ LF) = true.

Section Files.
Context {path : Path}.
Variable __dirname : string.

(** The six files of a module, as [write] is called for them, for a
    namespace whose family and base name are [family] and [base]. *)
Definition module_files (version namespace : string)
    (javaPackage javaArtifactId lowcaseModuleName : string)
  : list (string * contents) :=
  [ ("package.json",
     CObject (package_json (packageName namespace) version namespace
                (moduleName namespace) (dotnetPackage namespace)
                javaPackage javaArtifactId));
    (".gitignore", CArray gitignore);
    (".npmignore", CArray npmignore);
    ("lib/index.ts", CArray (index_ts namespace lowcaseModuleName));
    ("test/test." +:+ lowcaseModuleName +:+ ".ts", CArray test_ts);
    ("README.md",
     CArray (readme namespace lowcaseModuleName (packageName namespace))) ].

(** The [writeFile] request that [write] ends with. *)
Definition request_of (pacakgePath : string) (file : string * contents)
  : option (string * string) :=
  match data_of file.2 with
  | Ok data => Some (join [pacakgePath; file.1], data +:+ LF)
  | Throw _ => None
  end.
End Files.

End Scaffolder.

(* ===================================================================== *)
(** * Whole runs of the scaffolder *)
(* ===================================================================== *)

Module Runs.
Import Js Eff Node Scaffolder.

(** The value a host function rejected with: [require], the listing of the
    namespaces or one of the [fs] functions. *)
Definition rejection (o : obs sysE) : option error :=
  match o with
  | Obs e x =>
      match e in sysE X return X -> option error with
      | RequirePackageVersion => fun x =>
          match x with Throw err => Some err | Ok _ => None end
      | Namespaces => fun x =>
          match x with Throw err => Some err | Ok _ => None end
      | Mkdirp _ => fun x =>
          match x with Throw err => Some err | Ok _ => None end
      | WriteFile _ _ => fun x =>
          match x with Throw err => Some err | Ok _ => None end
      | Readdir _ => fun x =>
          match x with Throw err => Some err | Ok _ => None end
      | Copy _ _ => fun x =>
          match x with Throw err => Some err | Ok _ => None end
      | ResolveLerna => fun x =>
          match x with Throw err => Some err | Ok _ => None end
      | _ => fun _ => None
      end x
  end.

(** The ['error'] event of a child. *)
Definition spawn_error (o : obs sysE) : option error :=
  match o with
  | Obs e x =>
      match e in sysE X return X -> option error with
      | Spawn _ => fun x =>
          match x with ChildError err => Some err | ChildExit _ => None end
      | _ => fun _ => None
      end x
  end.

(** The value [exec] rejected with after a child. *)
Definition child_failure (o : obs sysE) : option error :=
  match o with
  | Obs e x =>
      match e in sysE X return X -> option error with
      | Spawn _ => fun outcome => exec_failure outcome
      | _ => fun _ => None
      end x
  end.

(** An existence check that found nothing. *)
Definition missing (o : obs sysE) : bool :=
  match o with
  | Obs e x =>
      match e in sysE X return X -> bool with
      | PathExists _ => fun present => negb present
      | _ => fun _ => false
      end x
  end.

(** Why [main] threw [e] right after the observation [o]: a host function
    rejected with it, a child failed with it, or the directory of a
    namespace without base name was found missing. *)
Definition cause (e : error) (o : obs sysE) : Prop :=
  rejection o = Some e
  \/ child_failure o = Some e
  \/ (missing o = true /\ e = TypeErrorOnUndefined "toLocaleLowerCase").

(** A trace that ends with the cause of [e]. *)
Definition blamed (e : error) (tr : list (obs sysE)) : Prop :=
  exists pre o, tr = pre ++ [o] /\ cause e o.

(** A program that, when it throws, has the cause as its last
    observation. *)
Definition blames {S A : Type} (h : handler sysE S) (p : prog sysE (result A)) : Prop :=
  forall s e s' tr, run h p s = (Throw e, s', tr) -> blamed e tr.

(** The path of an existence check. *)
Definition checked (o : obs sysE) : option string :=
  match o with
  | Obs e _ => match e with PathExists p => Some p | _ => None end
  end.

(** Every host function that may reject is followed, when it does, by
    [abort] of what it rejected with. *)
Definition fail_fast {R : Type} (abort : error -> prog sysE R)
  : forall X : Type, sysE X -> (X -> prog sysE R) -> Prop :=
  fun X e =>
    match e in sysE X return (X -> prog sysE R) -> Prop with
    | RequirePackageVersion => fun k => forall err, k (Throw err) = abort err
    | Namespaces => fun k => forall err, k (Throw err) = abort err
    | Mkdirp _ => fun k => forall err, k (Throw err) = abort err
    | WriteFile _ _ => fun k => forall err, k (Throw err) = abort err
    | Readdir _ => fun k => forall err, k (Throw err) = abort err
    | Copy _ _ => fun k => forall err, k (Throw err) = abort err
    | ResolveLerna => fun k => forall err, k (Throw err) = abort err
    | _ => fun _ => True
    end.

Section Traces.
Context {path : Path}.
Variable __dirname : string.

(** What a call of [write] that returns is seen to do. *)
Definition write_trace (pacakgePath : string) (file : string * contents)
  : list (obs sysE) :=
  match data_of file.2 with
  | Ok data =>
      [ Obs (Mkdirp (dirname (join [pacakgePath; file.1]))) (Ok tt);
        Obs (WriteFile (join [pacakgePath; file.1]) (data +:+ LF)) (Ok tt) ]
  | Throw _ => []
  end.

(** What a generation that returns is seen to do, given the Java names,
    the entries [files] that [readdir] listed in the template directory and
    the path [resolved] that [require.resolve] answered. *)
Definition successful_generation (version namespace : string)
    (javaPackage javaArtifactId lowcaseModuleName : string)
    (files : list string) (resolved : string) : list (obs sysE) :=
  let pacakgePath := pacakgePath __dirname namespace in
  let packageName := packageName namespace in
  let templateDir := join [__dirname; "template"] in
  let lerna := join [dirname resolved; "cli.js"] in
  Obs (ConsoleLog ("generating module for " +:+ packageName +:+ "...")) tt
    :: concat (List.map (write_trace pacakgePath)
                 (module_files version namespace javaPackage javaArtifactId
                    lowcaseModuleName))
    ++ Obs (Readdir templateDir) (Ok files)
    :: List.map (fun file =>
                   Obs (Copy (join [templateDir; file]) (join [pacakgePath; file]))
                     (Ok tt)) files
    ++ [ Obs ResolveLerna (Ok resolved);
         Obs (Spawn (lerna +:+ " bootstrap --scope " +:+ packageName))
           (ChildExit (Some 0%Z));
         Obs (Spawn (lerna
                       +:+ " run --include-filtered-dependencies --progress build --scope "
                       +:+ packageName))
           (ChildExit (Some 0%Z)) ].

(** What is seen before the first child of a module starts. *)
Definition scaffolding (version namespace : string)
    (javaPackage javaArtifactId lowcaseModuleName : string)
    (files : list string) (resolved : string) : list (obs sysE) :=
  let pacakgePath := pacakgePath __dirname namespace in
  let templateDir := join [__dirname; "template"] in
  Obs (ConsoleLog ("generating module for " +:+ packageName namespace +:+ "...")) tt
    :: concat (List.map (write_trace pacakgePath)
                 (module_files version namespace javaPackage javaArtifactId
                    lowcaseModuleName))
    ++ Obs (Readdir templateDir) (Ok files)
    :: List.map (fun file =>
                   Obs (Copy (join [templateDir; file]) (join [pacakgePath; file]))
                     (Ok tt)) files
    ++ [ Obs ResolveLerna (Ok resolved) ].

(** The [bootstrap] command of a module. *)
Definition bootstrap_command (namespace resolved : string) : string :=
  join [dirname resolved; "cli.js"] +:+ " bootstrap --scope " +:+ packageName namespace.

(** What one turn of the loop that returns is seen to do: the check alone
    when the directory is there, the check and a whole generation when it
    is not. *)
Definition visited (version namespace : string) (segment : list (obs sysE)) : Prop :=
  segment = [Obs (PathExists (pacakgePath __dirname namespace)) true]
  \/ exists baseName javaPackage javaArtifactId files resolved,
       moduleBaseName namespace = Some baseName
       /\ Scaffolder.javaPackage (moduleFamily namespace) (toLocaleLowerCase baseName)
          = Ok javaPackage
       /\ Scaffolder.javaArtifactId (moduleFamily namespace) (toLocaleLowerCase baseName)
          = Ok javaArtifactId
       /\ segment
          = Obs (PathExists (pacakgePath __dirname namespace)) false
              :: successful_generation version namespace javaPackage javaArtifactId
                   (toLocaleLowerCase baseName) files resolved.
End Traces.

End Runs.

(* ===================================================================== *)
(** * A repository to run the script in *)
(* ===================================================================== *)

Module Fixture.
Import Js Eff Node Scaffolder.

(** The directory of the script in a checkout under [/repo]. *)
Definition build_tools : string := "/repo/packages/@aws-cdk/cfnspec/build-tools".

(** A checkout with one generated module, [aws-ec2], and a template
    directory that holds one file. *)
Definition repo_fs : gmap string node :=
  list_to_map
    [ ("/", Dir);
      ("/repo", Dir);
      ("/repo/packages", Dir);
      ("/repo/packages/@aws-cdk", Dir);
      ("/repo/packages/@aws-cdk/aws-ec2", Dir);
      ("/repo/packages/@aws-cdk/cfnspec", Dir);
      ("/repo/packages/@aws-cdk/cfnspec/build-tools", Dir);
      ("/repo/packages/@aws-cdk/cfnspec/build-tools/template", Dir);
      ("/repo/packages/@aws-cdk/cfnspec/build-tools/template/LICENSE",
       File "Apache-2.0") ].

Definition repo (namespaces : list string) (child : string -> child_outcome)
  : World :=
  {| fs := repo_fs;
     package_version := Ok "1.2.3";
     cfn_namespaces := Ok namespaces;
     lerna_package_json := Ok "/repo/node_modules/lerna/package.json";
     child := child;
     spawned := [];
     stdout := [];
     stderr := [] |}.

(** Children that all exit with the code [code]. *)
Definition exits_with (code : Z) : string -> child_outcome :=
  fun _ => ChildExit (Some code).

(** The script as it lies elsewhere: two levels up is not [@aws-cdk]. *)
Definition moved : string := "/tmp/build-tools".

End Fixture.

(** Hosts in which something goes wrong. *)
Module Mishaps.
Import Js Eff Node Scaffolder Fixture.

(** Children that cannot be spawned. *)
Definition cannot_spawn : string -> child_outcome :=
  fun _ => ChildError (HostError "ENOENT").

(** The repository of [Fixture] without [lerna] installed. *)
Definition repo_without_lerna (namespaces : list string) : World :=
  {| fs := repo_fs;
     package_version := Ok "1.2.3";
     cfn_namespaces := Ok namespaces;
     lerna_package_json := Throw (HostError "MODULE_NOT_FOUND");
     child := exits_with 0;
     spawned := [];
     stdout := [];
     stderr := [] |}.

(** A construct tree that refuses every new child. *)
Definition refuse_children
  : handler (Facade.targetE nat unit string nat unit unit unit) unit :=
  fun X e =>
    match e in Facade.targetE _ _ _ _ _ _ _ X return unit -> X * unit with
    | Facade.ConstructSuper _ _ => fun s => (Throw (Error "duplicate id"), s)
    | Facade.NewScalableTarget _ _ _ => fun s => (Throw (Error "duplicate id"), s)
    | Facade.TargetScaleOnSchedule _ _ _ => fun s => (Ok tt, s)
    | Facade.TargetScaleOnMetric _ _ _ => fun s => (Ok tt, s)
    | Facade.TargetScaleToTrackMetric _ _ _ => fun s => (Ok tt, s)
    end.

End Mishaps.

(* ===================================================================== *)
(** * Facts about strings *)
(* ===================================================================== *)

Module JsFacts.
Import Js.

Lemma app_cons c s t : String c s +:+ t = String c (s +:+ t).
Proof. reflexivity. Qed.

Lemma app_empty_l s : EmptyString +:+ s = s.
Proof. reflexivity. Qed.

Lemma app_empty_r s : s +:+ EmptyString = s.
Proof. induction s as [|c s IH]; [reflexivity|]. rewrite app_cons. by f_equal. Qed.

Lemma app_assoc a b c : (a +:+ b) +:+ c = a +:+ (b +:+ c).
Proof.
  induction a as [|x a IH]; [reflexivity|].
  rewrite !app_cons. by f_equal.
Qed.

Lemma length_app a b : String.length (a +:+ b) = (String.length a + String.length b)%nat.
Proof. induction a as [|x a IH]; [reflexivity|]. rewrite app_cons. simpl. by rewrite IH. Qed.

(** Lowering distributes over concatenation: it works code unit by code
    unit. *)
Lemma lower_app a b :
  toLocaleLowerCase (a +:+ b) = toLocaleLowerCase a +:+ toLocaleLowerCase b.
Proof.
  induction a as [|x a IH]; [reflexivity|].
  rewrite app_cons. simpl. rewrite app_cons. by f_equal.
Qed.


Lemma rev_onto_app acc res t : rev_onto acc res +:+ t = rev_onto acc (res +:+ t).
Proof.
  revert res. induction acc as [|c acc IH]; intros res; [reflexivity|].
  simpl. by rewrite IH.
Qed.

(** ** [split] on the separator [::] *)

Local Abbreviation sep := "::".

Lemma split_sep s : split sep s = split_scan sep 0 EmptyString s.
Proof. reflexivity. Qed.



(** A string without [::] is one piece. *)
Lemma split_scan_last b : forall acc,
  includes sep b = false -> split_scan sep 0 acc b = [rev_onto acc b].
Proof.
  induction b as [|c b IH]; intros acc Hfree; [reflexivity|].
  cbn [includes] in Hfree. apply orb_false_elim in Hfree as [Hhead Htail].
  cbn [split_scan]. rewrite Hhead. rewrite (IH _ Htail). reflexivity.
Qed.


Lemma split_one namespace :
  includes sep namespace = false -> split sep namespace = [namespace].
Proof.
  intros H. by rewrite split_sep, (split_scan_last _ _ H).
Qed.

(** Whatever the string, [split] binds the family: the array is never
    empty. *)
Lemma split_scan_nonempty sp s : forall skip acc, split_scan sp skip acc s <> [].
Proof.
  induction s as [|c s IH]; intros skip acc; [discriminate|].
  cbn [split_scan]. destruct skip; [|apply IH].
  destruct (startsWith sp (String c s)); [discriminate | apply IH].
Qed.

(** ** Suffixes *)

Lemma endsWith_refl p : endsWith p p = true.
Proof.
  destruct p as [|c p]; cbn [endsWith]; rewrite bool_decide_eq_true_2; done.
Qed.

Lemma endsWith_app p a b : endsWith p b = true -> endsWith p (a +:+ b) = true.
Proof.
  intros H. induction a as [|x a IH]; [exact H|].
  rewrite app_cons. simpl. rewrite IH. apply orb_true_r.
Qed.

Lemma endsWith_app_long p a b :
  (String.length p <= String.length b)%nat ->
  endsWith p (a +:+ b) = endsWith p b.
Proof.
  intros Hlen. induction a as [|x a IH]; [reflexivity|].
  rewrite app_cons. simpl. rewrite IH.
  rewrite bool_decide_eq_false_2; [reflexivity|].
  intros ->. simpl in Hlen. rewrite length_app in Hlen. lia.
Qed.

Lemma includes_suffix p a : includes p (a +:+ p) = true.
Proof.
  induction a as [|x a IH].
  - rewrite app_empty_l. destruct p as [|c p]; [reflexivity|].
    simpl. rewrite decide_True by done.
    assert (H : forall q, startsWith q q = true).
    { induction q as [|y q IHq]; [reflexivity|]. simpl. by rewrite decide_True. }
    by rewrite H.
  - rewrite app_cons. simpl. rewrite IH. apply orb_true_r.
Qed.

(** A text whose last two code units are a non-line-feed and a line feed
    has exactly one trailing newline. *)
Lemma one_trailing_newline_app a b :
  (2 <= String.length b)%nat ->
  one_trailing_newline b = true -> one_trailing_newline (a +:+ b) = true.
Proof.
  unfold one_trailing_newline. intros Hlen H.
  rewrite (endsWith_app_long (LF +:+ LF)) by exact Hlen.
  rewrite (endsWith_app_long LF) by (simpl; lia). exact H.
Qed.

(** A line feed put after a text ends it; a second line feed ends it as
    well exactly when the text ended with one before. *)
Lemma endsWith_LF_snoc data : endsWith LF (data +:+ LF) = true.
Proof. apply endsWith_app, endsWith_refl. Qed.

Lemma endsWith_two_LF_snoc data :
  endsWith (LF +:+ LF) (data +:+ LF) = endsWith LF data.
Proof.
  induction data as [|c d IH]; [reflexivity|].
  rewrite app_cons. cbn [endsWith]. rewrite IH. f_equal.
  apply bool_decide_ext. split.
  - intros [= <- Htail]. destruct d as [|x d]; [reflexivity|].
    rewrite app_cons in Htail. injection Htail as _ Htail.
    by destruct d.
  - by intros [= <- <-].
Qed.

Lemma one_trailing_newline_snoc data :
  one_trailing_newline (data +:+ LF) = negb (endsWith LF data).
Proof.
  unfold one_trailing_newline.
  by rewrite endsWith_LF_snoc, endsWith_two_LF_snoc.
Qed.

(** What ends with a closing brace does not end with a line feed. *)
Lemma endsWith_LF_brace head : endsWith LF (head +:+ "}") = false.
Proof. by rewrite endsWith_app_long by (simpl; lia). Qed.

(** ** The functions at work *)

Example split_namespace : split "::" "AWS::EC2" = ["AWS"; "EC2"].
Proof. reflexivity. Qed.

Example split_takes_every_separator : split "::" "AWS::EC2::Instance" = ["AWS"; "EC2"; "Instance"].
Proof. reflexivity. Qed.

Example split_without_separator : split "::" "Alexa" = ["Alexa"].
Proof. reflexivity. Qed.

Example split_odd_colons : split "::" "A:::B" = ["A"; ":B"].
Proof. reflexivity. Qed.

Example lower_mixed : toLocaleLowerCase "AWS-Ec2_x9" = "aws-ec2_x9".
Proof. reflexivity. Qed.

Example trimLeft_first_newline : trimLeft (LF +:+ "  a b ") = "a b ".
Proof. reflexivity. Qed.

Example join_lines : Js.join LF ["a"; EmptyString; "b"] = "a" +:+ LF +:+ LF +:+ "b".
Proof. reflexivity. Qed.

Example string_of_exit_codes :
  (string_of_nullable_Z (Some 3%Z), string_of_nullable_Z (Some (-1)%Z),
   string_of_nullable_Z None) = ("3", "-1", "null").
Proof. reflexivity. Qed.

Example stringify_nested :
  stringify (JObj [ ("a", JStr "x"); ("b", JObj [ ("c", JBool true) ]);
                    ("d", JArr [ JNull ]); ("e", JObj []) ])
  = "{" +:+ LF
      +:+ "  " +:+ DQ +:+ "a" +:+ DQ +:+ ": " +:+ DQ +:+ "x" +:+ DQ +:+ "," +:+ LF
      +:+ "  " +:+ DQ +:+ "b" +:+ DQ +:+ ": {" +:+ LF
      +:+ "    " +:+ DQ +:+ "c" +:+ DQ +:+ ": true" +:+ LF
      +:+ "  }," +:+ LF
      +:+ "  " +:+ DQ +:+ "d" +:+ DQ +:+ ": [" +:+ LF
      +:+ "    null" +:+ LF
      +:+ "  ]," +:+ LF
      +:+ "  " +:+ DQ +:+ "e" +:+ DQ +:+ ": {}" +:+ LF
      +:+ "}".
Proof. reflexivity. Qed.

Example stringify_escapes :
  json_quote ("a" +:+ DQ +:+ "b" +:+ BSL +:+ LF)
  = DQ +:+ "a" +:+ BSL +:+ DQ +:+ "b" +:+ BSL +:+ BSL +:+ BSL +:+ "n" +:+ DQ.
Proof. reflexivity. Qed.

Example two_newlines_are_not_one :
  one_trailing_newline ("a" +:+ LF +:+ LF) = false
  /\ one_trailing_newline ("a" +:+ LF) = true
  /\ one_trailing_newline "a" = false.
Proof. repeat split; reflexivity. Qed.

End JsFacts.

(* ===================================================================== *)
(** * Facts about effect trees *)
(* ===================================================================== *)

Module EffFacts.
Import Js Eff.

Section Facts.
Context {E : Type -> Type}.

Lemma run_seq {S A B : Type} (h : handler E S) (m : prog E A) (f : A -> prog E B) :
  forall s,
    run h (seq m f) s =
      let '(a, s1, tr1) := run h m s in
      let '(b, s2, tr2) := run h (f a) s1 in
      (b, s2, tr1 ++ tr2).
Proof.
  induction m as [a|X e k IH]; intros s; simpl.
  - destruct (run h (f a) s) as [[b s2] tr2]. reflexivity.
  - destruct (h X e s) as [x s1]. rewrite IH.
    destruct (run h (k x) s1) as [[a s1'] tr1].
    destruct (run h (f a) s1') as [[b s2] tr2]. reflexivity.
Qed.

(** A step that throws ends the sequence; a step that returns hands its
    state to the next one. *)
Lemma run_bind {S A B : Type} (h : handler E S) (m : prog E (result A))
    (f : A -> prog E (result B)) s :
  run h (bind m f) s =
    let '(r, s1, tr1) := run h m s in
    match r with
    | Ok a => let '(b, s2, tr2) := run h (f a) s1 in (b, s2, tr1 ++ tr2)
    | Throw e => (Throw e, s1, tr1)
    end.
Proof.
  unfold bind. rewrite run_seq.
  destruct (run h m s) as [[[a|e] s1] tr1]; simpl.
  - reflexivity.
  - by rewrite app_nil_r.
Qed.

(** A call of a host function is one observation. *)
Lemma run_perform {S A : Type} (h : handler E S) (e : E (result A)) s :
  run h (perform e) s = ((h _ e s).1, (h _ e s).2, [Obs e (h _ e s).1]).
Proof. unfold perform. simpl. by destruct (h _ e s). Qed.

(** The loop runs its body on the first element; it goes on to the rest
    exactly when the body returns. *)
Lemma run_for_of {S A : Type} (h : handler E S) (x : A) rest body s :
  run h (for_of (x :: rest) body) s =
    let '(r, s1, tr1) := run h (body x) s in
    match r with
    | Ok _ => let '(b, s2, tr2) := run h (for_of rest body) s1 in (b, s2, tr1 ++ tr2)
    | Throw e => (Throw e, s1, tr1)
    end.
Proof. cbn [for_of]. apply run_bind. Qed.

Lemma every_node_weaken {R : Type} (Q Q' : forall X, E X -> (X -> prog E R) -> Prop)
    (p : prog E R) :
  (forall X e k, Q X e k -> Q' X e k) -> every_node Q p -> every_node Q' p.
Proof.
  intros Himp. induction p as [r|X e k IH]; simpl; [done|].
  intros [Hq Hk]. split; [by apply Himp | intros x; by apply IH].
Qed.

Lemma every_node_seq {A B : Type}
    (Q' : forall X, E X -> (X -> prog E A) -> Prop)
    (Q : forall X, E X -> (X -> prog E B) -> Prop)
    (m : prog E A) (f : A -> prog E B) :
  every_node Q' m ->
  (forall X e k, Q' X e k -> Q X e (fun x => seq (k x) f)) ->
  (forall a, every_node Q (f a)) ->
  every_node Q (seq m f).
Proof.
  intros Hm Hlift Hf. induction m as [a|X e k IH]; simpl.
  - apply Hf.
  - destruct Hm as [Hq Hk]. split; [by apply Hlift | intros x; by apply IH].
Qed.

(** Every observation of a run is explained by the node it came from. *)
Lemma every_node_explained {S R : Type} (h : handler E S)
    (Q : forall X, E X -> (X -> prog E R) -> Prop) (p : prog E R) :
  every_node Q p ->
  forall s r s' tr, run h p s = (r, s', tr) ->
  forall pre o post, tr = pre ++ o :: post ->
  explained h Q o post r s' (state_after h (pre ++ [o]) s).
Proof.
  induction p as [r0|X e k IH]; simpl; intros Hq s r s' tr Hrun pre o post Htr.
  - injection Hrun as <- <- <-. by destruct pre.
  - destruct Hq as [Hq Hk].
    destruct (h X e s) as [x s1] eqn:Hh.
    destruct (run h (k x) s1) as [[r1 s2] tr1] eqn:Hrest.
    injection Hrun as <- <- <-.
    destruct pre as [|o' pre]; simpl in Htr.
    + injection Htr as <- <-. simpl. rewrite Hh. eauto.
    + injection Htr as <- ->. simpl. rewrite Hh. eapply IH; eauto.
Qed.

(** A property of requests alone holds of every observation. *)
Lemma every_node_Forall {S R : Type} (h : handler E S)
    (P : forall X, E X -> Prop) (p : prog E R) :
  every_node (fun X e _ => P X e) p ->
  forall s, Forall (fun o => match o with Obs e _ => P _ e end) (run h p s).2.
Proof.
  induction p as [r0|X e k IH]; simpl; intros Hq s; [constructor|].
  destruct Hq as [Hq Hk].
  destruct (h X e s) as [x s1].
  specialize (IH x (Hk x) s1).
  destruct (run h (k x) s1) as [[r1 s2] tr1]. simpl in *.
  by constructor.
Qed.
End Facts.

End EffFacts.

(* ===================================================================== *)
(** * The tree of the scaffolder *)
(* ===================================================================== *)

Module ScaffolderFacts.
Import Js Eff Eff.Notations Node Scaffolder JsFacts EffFacts.

(** ** Composing the rule *)

Lemma rule_bind {A B : Type}
    (resume' skip' : prog sysE (result A) -> Prop) (console' : Prop)
    (resume skip : prog sysE (result B) -> Prop) (console : Prop)
    (m : prog sysE (result A)) (f : A -> prog sysE (result B)) :
  every_node (rule resume' skip' throw console') m ->
  (forall p, resume' p -> resume (bind p f)) ->
  (forall p, skip' p -> skip (bind p f)) ->
  (console' -> console) ->
  (forall a, every_node (rule resume skip throw console) (f a)) ->
  every_node (rule resume skip throw console) (bind m f).
Proof.
  intros Hm Hresume Hskip Hconsole Hf. unfold bind.
  eapply every_node_seq; [exact Hm | | ].
  - intros X e k. destruct e; simpl; try done.
    + intros Hk. exact (Hskip _ Hk).
    + intros Hk outcome. specialize (Hk outcome).
      destruct (exec_failure outcome) as [err|].
      * by rewrite Hk.
      * exact (Hresume _ Hk).
  - intros [a|e]; [apply Hf | exact I].
Qed.

(** After a plain step the rule of what follows is the rule of the whole. *)
Lemma plain_bind {A B : Type}
    (resume skip : prog sysE (result B) -> Prop) (console : Prop)
    (m : prog sysE (result A)) (f : A -> prog sysE (result B)) :
  every_node plain m ->
  (forall a, every_node (rule resume skip throw console) (f a)) ->
  every_node (rule resume skip throw console) (bind m f).
Proof.
  intros Hm Hf. eapply rule_bind; [exact Hm | done | done | done | exact Hf].
Qed.

Lemma bind_lift_ok {A B : Type} (a : A) (f : A -> prog sysE (result B)) :
  bind (lift (Ok a)) f = f a.
Proof. reflexivity. Qed.

Lemma bind_lift_throw {A B : Type} (e : error) (f : A -> prog sysE (result B)) :
  bind (lift (Throw e)) f = throw e.
Proof. reflexivity. Qed.

Lemma plain_lift {A : Type} (r : result A) : every_node plain (lift r).
Proof. exact I. Qed.

Lemma plain_for_of {A : Type} (xs : list A) (body : A -> prog sysE (result unit)) :
  (forall x, every_node plain (body x)) -> every_node plain (for_of xs body).
Proof.
  intros Hbody. induction xs as [|x xs IH]; [exact I|].
  cbn [for_of]. apply plain_bind; [apply Hbody | intros _; exact IH].
Qed.

Section Tree.
Context {path : Path}.
Variable __dirname : string.

Lemma plain_write pacakgePath relativePath c :
  ends_a_line c -> every_node plain (write pacakgePath relativePath c).
Proof.
  intros Hline. unfold write.
  apply plain_bind; [simpl; done|]. intros _.
  destruct (data_of c) as [data|e] eqn:Hdata; simpl; [|done].
  split; [by apply Hline | done].
Qed.

(** The two children of a module: the second starts when the first exits
    with 0, and a failure of either is the failure of the pair. *)
Lemma rule_exec_twice c1 c2 :
  every_node
    (rule (fun p => p = ret tt \/ starts_with_spawn p) (fun _ => False) throw False)
    (do* exec c1 in exec c2).
Proof.
  simpl. split.
  - intros [e|code]; simpl; [done|]. case_decide; simpl; [by right | done].
  - intros [e|code]; simpl; [done|]. case_decide; simpl; [|done].
    split; [|intros [e|code']; simpl; [done | by case_decide]].
    intros [e|code']; simpl; [done|]. case_decide; simpl; [by left | done].
Qed.

Lemma rule_mono {R : Type} (resume resume' skip skip' : prog sysE R -> Prop)
    (abort : error -> prog sysE R) (console console' : Prop) :
  (forall p, resume p -> resume' p) ->
  (forall p, skip p -> skip' p) ->
  (console -> console') ->
  forall X e k, rule resume skip abort console X e k ->
                rule resume' skip' abort console' X e k.
Proof.
  intros Hresume Hskip Hconsole X e k. destruct e; simpl; try done.
  - apply Hskip.
  - intros Hk outcome. specialize (Hk outcome).
    destruct (exec_failure outcome); [done | by apply Hresume].
Qed.

(** ** The files end in one newline *)

Lemma stringify_object_tail field fields :
  exists head, stringify (JObj (field :: fields)) = head +:+ "}".
Proof.
  unfold stringify. cbn [stringify_at].
  match goal with |- context [Js.join ?sp ?items] => set (body := Js.join sp items) end.
  exists ("{" +:+ LF +:+ body +:+ LF).
  rewrite !app_assoc. reflexivity.
Qed.

Ltac newline_tail :=
  rewrite ?app_assoc;
  repeat first
    [ reflexivity
    | apply one_trailing_newline_app; [ rewrite ?length_app; simpl; lia | ] ].

Lemma package_json_ends_a_line pn version namespace mn dn jp ja :
  ends_a_line (CObject (package_json pn version namespace mn dn jp ja)).
Proof.
  intros data [= <-]. unfold package_json.
  match goal with
  | |- context [stringify (JObj (?f :: ?fs))] =>
      destruct (stringify_object_tail f fs) as [head ->]
  end.
  newline_tail.
Qed.

Lemma gitignore_ends_a_line : ends_a_line (CArray gitignore).
Proof. intros data [= <-]. reflexivity. Qed.

Lemma npmignore_ends_a_line : ends_a_line (CArray npmignore).
Proof. intros data [= <-]. reflexivity. Qed.

Lemma test_ts_ends_a_line : ends_a_line (CArray test_ts).
Proof. intros data [= <-]. reflexivity. Qed.

Lemma index_ts_ends_a_line namespace lowcaseModuleName :
  ends_a_line (CArray (index_ts namespace lowcaseModuleName)).
Proof. intros data [= <-]. unfold index_ts. cbn [Js.join]. newline_tail. Qed.

Lemma readme_ends_a_line namespace lowcaseModuleName packageName :
  ends_a_line (CArray (readme namespace lowcaseModuleName packageName)).
Proof. intros data [= <-]. unfold readme. cbn [Js.join]. newline_tail. Qed.

(** ** The rule, level by level *)

Lemma rule_generate version namespace :
  every_node
    (rule (fun p => p = ret tt \/ starts_with_spawn p) (fun _ => False) throw False)
    (generate __dirname version namespace).
Proof.
  unfold generate. cbv zeta.
  apply plain_bind; [apply plain_lift | intros lowcaseModuleName].
  apply plain_bind; [apply plain_lift | intros javaPackage].
  apply plain_bind; [apply plain_lift | intros javaArtifactId].
  apply plain_bind; [simpl; done | intros _].
  apply plain_bind; [apply plain_write, package_json_ends_a_line | intros _].
  apply plain_bind; [apply plain_write, gitignore_ends_a_line | intros _].
  apply plain_bind; [apply plain_write, npmignore_ends_a_line | intros _].
  apply plain_bind; [apply plain_write, index_ts_ends_a_line | intros _].
  apply plain_bind; [apply plain_write, test_ts_ends_a_line | intros _].
  apply plain_bind; [apply plain_write, readme_ends_a_line | intros _].
  apply plain_bind; [simpl; done | intros files].
  apply plain_bind; [apply plain_for_of; intros file; simpl; done | intros _].
  apply plain_bind; [simpl; done | intros resolved].
  apply rule_exec_twice.
Qed.

Lemma rule_iteration version namespace :
  every_node
    (rule (fun p => p = ret tt \/ starts_with_spawn p) (fun p => p = ret tt)
       throw False)
    (iteration __dirname version namespace).
Proof.
  unfold iteration. cbn [every_node bind seq ask rule]. split; [reflexivity|].
  intros [|]; [exact I|].
  eapply every_node_weaken; [|apply rule_generate].
  apply rule_mono; done.
Qed.

(** A loop is over, or it starts by checking a path. *)
Lemma loop_head version namespaces :
  let loop := for_of namespaces (iteration __dirname version) in
  loop = ret tt \/ starts_with_check loop.
Proof. destruct namespaces as [|namespace rest]; [by left | by right]. Qed.

Lemma rule_loop version namespaces :
  every_node
    (rule (fun p => p = ret tt \/ starts_with_spawn p \/ starts_with_check p)
       (fun p => p = ret tt \/ starts_with_check p) throw False)
    (for_of namespaces (iteration __dirname version)).
Proof.
  induction namespaces as [|namespace rest IH]; [exact I|].
  cbn [for_of]. eapply rule_bind; [apply rule_iteration | | | done | intros _; exact IH].
  - intros p [-> | Hp].
    + destruct (loop_head version rest) as [H|H]; [by left | by right; right].
    + right; left. by destruct p.
  - intros p ->. apply loop_head.
Qed.

Lemma rule_main :
  every_node
    (rule (fun p => p = ret tt \/ starts_with_spawn p \/ starts_with_check p)
       (fun p => p = ret tt \/ starts_with_check p) throw False)
    (main __dirname).
Proof.
  unfold main. case_decide; [exact I|].
  apply plain_bind; [simpl; done | intros version].
  apply plain_bind; [simpl; done | intros namespaces].
  apply rule_loop.
Qed.

(** The whole script: after a child that exited with 0 comes the next
    child, the next existence check or the exit with status 0; after a path
    that exists comes the next check or the exit with status 0; after a
    child that failed come [console.error] and the exit with status 1. *)
Lemma rule_script :
  every_node
    (rule (fun p => p = Ret 0%Z \/ starts_with_spawn p \/ starts_with_check p)
       (fun p => p = Ret 0%Z \/ starts_with_check p)
       (fun e => Vis (ConsoleError e) (fun _ => Ret 1%Z)) True)
    (script __dirname).
Proof.
  unfold script. eapply every_node_seq; [apply rule_main | | ].
  - intros X e k. destruct e; simpl; try done.
    + intros [-> | Hp]; [by left | right; by destruct (k true)].
    + intros Hk outcome. specialize (Hk outcome).
      destruct (exec_failure outcome) as [err|].
      * by rewrite Hk.
      * destruct Hk as [-> | [Hp | Hp]];
          [by left | right; left; by destruct (k outcome)
          | right; right; by destruct (k outcome)].
  - intros [[]|e]; simpl; done.
Qed.

(** ** What gets written, and in which order *)

Lemma written_app tr1 tr2 : written (tr1 ++ tr2) = written tr1 ++ written tr2.
Proof. apply omap_app. Qed.

(** A property of requests alone passes through [bind]. *)
Lemma events_bind {A B : Type} (P : forall X, sysE X -> Prop)
    (m : prog sysE (result A)) (f : A -> prog sysE (result B)) :
  every_node (fun X e _ => P X e) m ->
  (forall a, every_node (fun X e _ => P X e) (f a)) ->
  every_node (fun X e _ => P X e) (bind m f).
Proof.
  intros Hm Hf. unfold bind. eapply every_node_seq; [exact Hm | done |].
  intros [a|e]; [apply Hf | exact I].
Qed.

Lemma no_write_written {S R : Type} (h : handler sysE S) (p : prog sysE R) s :
  every_node (fun X e _ => no_write X e) p -> written (run h p s).2 = [].
Proof.
  intros Hp. pose proof (every_node_Forall h no_write p Hp s) as Hall.
  revert Hall. generalize (run h p s).2 as tr.
  induction tr as [|o tr IH]; intros Hall; [reflexivity|].
  apply Forall_cons in Hall as [Ho Hall].
  unfold written in *. cbn [omap list_omap]. rewrite (IH Hall).
  destruct o as [X e x]. by destruct e.
Qed.

(** A step that writes nothing adds nothing. *)
Lemma written_bind_quiet {S A B : Type} (h : handler sysE S)
    (m : prog sysE (result A)) (f : A -> prog sysE (result B)) s expected :
  every_node (fun X e _ => no_write X e) m ->
  (forall a s1, written (run h (f a) s1).2 `prefix_of` expected) ->
  written (run h (bind m f) s).2 `prefix_of` expected.
Proof.
  intros Hm Hf. rewrite run_bind.
  pose proof (no_write_written h m s Hm) as Hnone.
  destruct (run h m s) as [[[a|e] s1] tr1]; simpl in *.
  - specialize (Hf a s1). destruct (run h (f a) s1) as [[b s2] tr2]; simpl in *.
    by rewrite written_app, Hnone.
  - rewrite Hnone. apply prefix_nil.
Qed.

(** [write] asks for its one file, or for none when a step before fails. *)
Lemma written_write {S : Type} (h : handler sysE S) pacakgePath relativePath c s :
  let '(r, _, tr) := run h (write pacakgePath relativePath c) s in
  (written tr = [] /\ exists e, r = Throw e)
  \/ (exists data, data_of c = Ok data
        /\ written tr = [(join [pacakgePath; relativePath], data +:+ LF)]).
Proof.
  unfold write. cbn [bind seq perform run].
  destruct (h _ (Mkdirp _) s) as [[[]|e] s1]; simpl; [|left; eauto].
  destruct (data_of c) as [data|e]; simpl; [|left; eauto].
  destruct (h _ (WriteFile _ _) s1) as [r s2]. right; eauto.
Qed.

Lemma written_bind_write {S B : Type} (h : handler sysE S)
    pacakgePath file (f : unit -> prog sysE (result B)) s req expected :
  request_of pacakgePath file = Some req ->
  (forall s1, written (run h (f tt) s1).2 `prefix_of` expected) ->
  written (run h (bind (write pacakgePath file.1 file.2) f) s).2
    `prefix_of` req :: expected.
Proof.
  unfold request_of. intros Hreq Hf. rewrite run_bind.
  pose proof (written_write h pacakgePath file.1 file.2 s) as Hw.
  destruct (run h (write pacakgePath file.1 file.2) s) as [[r s1] tr1].
  destruct Hw as [[Hnone [e ->]] | [data [Hdata Hone]]]; simpl.
  - rewrite Hnone. apply prefix_nil.
  - rewrite Hdata in Hreq. injection Hreq as <-.
    destruct r as [[]|e]; simpl.
    + specialize (Hf s1). destruct (run h (f tt) s1) as [[b s2] tr2]; simpl in *.
      rewrite written_app, Hone. simpl. by apply prefix_cons.
    + rewrite Hone. apply prefix_cons, prefix_nil.
Qed.

(** Whatever the host answers, the files a module is written with are the
    first files of [module_files], in that order. *)
Lemma written_generate {S : Type} (h : handler sysE S) s version namespace
    lowcaseModuleName jp ja :
  call_on (moduleBaseName namespace) "toLocaleLowerCase" toLocaleLowerCase
    = Ok lowcaseModuleName ->
  javaPackage (moduleFamily namespace) lowcaseModuleName = Ok jp ->
  javaArtifactId (moduleFamily namespace) lowcaseModuleName = Ok ja ->
  written (run h (generate __dirname version namespace) s).2
    `prefix_of`
    omap (request_of (pacakgePath __dirname namespace))
      (module_files version namespace jp ja lowcaseModuleName).
Proof.
  intros Hlow Hjp Hja. unfold generate. cbv zeta.
  rewrite Hlow, bind_lift_ok. cbv beta.
  rewrite Hjp, bind_lift_ok. cbv beta.
  rewrite Hja, bind_lift_ok. cbv beta.
  revert s.
  assert (Hexec : forall c1 c2,
             every_node (fun X e _ => no_write X e) (do* exec c1 in exec c2)).
  { intros c1 c2. simpl. split; [done|]. intros [e|code]; simpl; [done|].
    case_decide; simpl; [|done]. split; [done|].
    intros [e|code']; simpl; [done | by case_decide]. }
  intros s.
  apply written_bind_quiet; [simpl; done | intros _ s0].
  unfold module_files. cbn [omap list_omap].
  repeat match goal with
  | |- context [request_of ?pkg (?rel, ?c)] =>
      let H := fresh "Hreq" in
      destruct (request_of pkg (rel, c)) as [?|] eqn:H;
      [|discriminate H]
  end.
  revert s0.
  repeat (let st := fresh "st" in
    intros st;
    match goal with
    | H : request_of ?pkg (?rel, ?c) = Some ?req
      |- _ `prefix_of` ?req :: _ =>
        apply (written_bind_write h pkg (rel, c) _ st req _ H); clear H
    end).
  intros last.
  replace (@nil (string * string)) with (written (@nil (obs sysE))) by reflexivity.
  rewrite no_write_written; [reflexivity|].
  apply events_bind; [simpl; done | intros files].
  apply events_bind.
  { induction files as [|file files IH]; [exact I|].
    cbn [for_of]. apply events_bind; [simpl; done | intros _; exact IH]. }
  intros _. apply events_bind; [simpl; done | intros resolved].
  apply Hexec.
Qed.
End Tree.

End ScaffolderFacts.

(* ===================================================================== *)
(** * The in-memory host keeps its directories *)
(* ===================================================================== *)

Module NodeFacts.
Import Js Eff Node Scaffolder EffFacts.

Lemma ancestors_self fuel dir : dir ∈ ancestors fuel dir.
Proof.
  destruct fuel as [|n]; simpl; [apply list_elem_of_here|].
  case_decide; apply list_elem_of_here.
Qed.

Lemma mkdirs_keep (dirs : list string) (m : gmap string node) (x : string) :
  m !! x = Some Dir -> foldr (fun d m => <[d := Dir]> m) m dirs !! x = Some Dir.
Proof.
  intros Hx. induction dirs as [|d dirs IH]; simpl; [exact Hx|].
  destruct (decide (d = x)) as [->|Hne].
  - apply lookup_insert_eq.
  - by rewrite lookup_insert_ne.
Qed.

Lemma mkdirs_make (dirs : list string) (m : gmap string node) (x : string) :
  x ∈ dirs -> foldr (fun d m => <[d := Dir]> m) m dirs !! x = Some Dir.
Proof.
  induction dirs as [|d dirs IH]; simpl; intros Hin.
  - by apply elem_of_nil in Hin.
  - destruct (decide (d = x)) as [->|Hne]; [apply lookup_insert_eq|].
    rewrite lookup_insert_ne by done. apply IH.
    apply elem_of_cons in Hin as [->|Hin]; [done | exact Hin].
Qed.

Lemma mkdirp_keeps (m m' : gmap string node) dir x :
  mkdirp m dir = Ok m' -> m !! x = Some Dir -> m' !! x = Some Dir.
Proof.
  unfold mkdirp. destruct (is_file m dir); [discriminate|].
  destruct (existsb _ _); [discriminate|].
  intros [= <-]. apply mkdirs_keep.
Qed.

Lemma mkdirp_makes (m m' : gmap string node) dir :
  mkdirp m dir = Ok m' -> m' !! dir = Some Dir.
Proof.
  unfold mkdirp. destruct (is_file m dir); [discriminate|].
  destruct (existsb _ _); [discriminate|].
  intros [= <-]. apply mkdirs_make, ancestors_self.
Qed.

Lemma writeFile_keeps (m m' : gmap string node) file data x :
  writeFile m file data = Ok m' -> m !! x = Some Dir -> m' !! x = Some Dir.
Proof.
  unfold writeFile. intros Hw Hx.
  destruct (decide (file = x)) as [->|Hne].
  - rewrite Hx in Hw. discriminate.
  - destruct (m !! file) as [[|old]|]; [discriminate| |];
      destruct (m !! Posix.dirname file) as [[|?]|]; try discriminate;
      injection Hw as <-; by rewrite lookup_insert_ne.
Qed.

Lemma copy_entries_keep src dest (entries : list (string * node))
    (m0 m' : gmap string node) x :
  foldr (copy_entry src dest) (Ok m0) entries = Ok m' ->
  m0 !! x = Some Dir -> m' !! x = Some Dir.
Proof.
  revert m'. induction entries as [|entry entries IH]; simpl; intros m' Hc Hx.
  - by injection Hc as <-.
  - destruct (foldr (copy_entry src dest) (Ok m0) entries) as [m1|e];
      [|discriminate].
    specialize (IH m1 eq_refl Hx). unfold copy_entry in Hc.
    destruct (below src entry.1) as [rest|]; [|by injection Hc as <-].
    destruct (decide (dest +:+ rest = x)) as [Heq|Hne].
    + rewrite Heq, IH in Hc.
      destruct entry.2; [|discriminate].
      injection Hc as <-. apply lookup_insert_eq.
    + destruct entry.2, (m1 !! (dest +:+ rest)) as [[|?]|]; try discriminate;
        injection Hc as <-; by rewrite lookup_insert_ne.
Qed.

Lemma copy_keeps (m m' : gmap string node) src dest x :
  copy m src dest = Ok m' -> m !! x = Some Dir -> m' !! x = Some Dir.
Proof.
  unfold copy. destruct (m !! src); [|discriminate].
  destruct (mkdirp m (Posix.dirname dest)) as [m1|e] eqn:Hmk; [|discriminate].
  intros Hc Hx. eapply copy_entries_keep; [exact Hc|].
  eapply mkdirp_keeps; eauto.
Qed.

Lemma settle_keeps w r x :
  (forall m', r = Ok m' -> fs w !! x = Some Dir -> m' !! x = Some Dir) ->
  fs w !! x = Some Dir -> fs (settle w r).2 !! x = Some Dir.
Proof. intros Hr Hx. destruct r as [m'|e]; simpl; [by apply Hr | exact Hx]. Qed.

(** No request removes a directory or turns it into a file. *)
Lemma world_keeps_dirs (X : Type) (e : sysE X) (w : World) (x : string) :
  fs w !! x = Some Dir -> fs (world X e w).2 !! x = Some Dir.
Proof.
  intros Hx. destruct e; simpl; try exact Hx.
  - apply settle_keeps; [|exact Hx]. intros m' Hm. eapply mkdirp_keeps, Hm.
  - apply settle_keeps; [|exact Hx]. intros m' Hm. eapply writeFile_keeps, Hm.
  - apply settle_keeps; [|exact Hx]. intros m' Hm. eapply copy_keeps, Hm.
Qed.

Lemma run_world_keeps_dirs {R : Type} (p : prog sysE R) :
  forall w x, fs w !! x = Some Dir -> fs (run world p w).1.2 !! x = Some Dir.
Proof.
  induction p as [r|X e k IH]; intros w x Hx; simpl; [exact Hx|].
  pose proof (world_keeps_dirs X e w x Hx) as Hstep.
  destruct (world X e w) as [a w1]. simpl in Hstep.
  specialize (IH a w1 x Hstep).
  destruct (run world (k a) w1) as [[r w2] tr]. exact IH.
Qed.

(** A directory that [mkdirp] reported made is there. *)
Lemma world_made_dir (X : Type) (e : sysE X) (w : World) (dir : string) :
  made_dir (Obs e (world X e w).1) = Some dir ->
  fs (world X e w).2 !! dir = Some Dir.
Proof.
  destruct e; simpl; try discriminate.
  destruct (mkdirp (fs w) dir0) as [m'|err] eqn:Hmk; simpl; [|discriminate].
  intros [= <-]. eapply mkdirp_makes, Hmk.
Qed.

(** Every directory made during a run is there when the run ends,
    however it ends. *)
Lemma run_world_made_dirs {R : Type} (p : prog sysE R) :
  forall w dir,
    Exists (fun o => made_dir o = Some dir) (run world p w).2 ->
    fs (run world p w).1.2 !! dir = Some Dir.
Proof.
  induction p as [r|X e k IH]; intros w dir Hex; simpl in *.
  - by apply Exists_nil in Hex.
  - pose proof (world_made_dir X e w dir) as Hmade.
    destruct (world X e w) as [a w1] eqn:Hw. simpl in Hmade.
    pose proof (run_world_keeps_dirs (k a) w1 dir) as Hkeep.
    specialize (IH a w1 dir).
    destruct (run world (k a) w1) as [[r w2] tr]. simpl in *.
    apply Exists_cons in Hex as [Hhere|Hlater]; [apply Hkeep, Hmade, Hhere|].
    by apply IH.
Qed.

(** Asking whether a path exists and printing leave the file system as it
    is. *)
Lemma world_check_unchanged (w : World) (p : string) :
  (world _ (PathExists p) w).2 = w.
Proof. reflexivity. Qed.

Lemma world_console_error_fs (w : World) (e : error) :
  fs (world _ (ConsoleError e) w).2 = fs w.
Proof. reflexivity. Qed.

End NodeFacts.

(* ===================================================================== *)
(** * Properties of the scaffolder *)
(* ===================================================================== *)

Module ScaffolderSpec.
Import Js Eff Eff.Notations Node Scaffolder.
Import JsFacts EffFacts ScaffolderFacts NodeFacts.

Section Run.
Context {path : Path}.
Variable __dirname : string.

Local Abbreviation pacakgePath := (pacakgePath __dirname).
Local Abbreviation iteration := (iteration __dirname).
Local Abbreviation generate := (generate __dirname).
Local Abbreviation script := (script __dirname).
Local Abbreviation main := (main __dirname).
Local Abbreviation root := (root __dirname).
Local Abbreviation wrong_root := (wrong_root __dirname).

(** The body of the loop when the path exists: one question, no more. *)
Lemma run_iteration_present {S : Type} (h : handler sysE S) s version namespace :
  (h _ (PathExists (pacakgePath namespace)) s).1 = true ->
  run h (iteration version namespace) s
  = (Ok tt, (h _ (PathExists (pacakgePath namespace)) s).2,
     [Obs (PathExists (pacakgePath namespace)) true]).
Proof.
  intros Hyes. unfold Scaffolder.iteration. cbn [bind seq ask run].
  destruct (h _ (PathExists _) s) as [present s1]. simpl in Hyes. subst present.
  reflexivity.
Qed.

(** What the observation after a settled step looks like. *)
Lemma run_starts_with_spawn {S R : Type} (h : handler sysE S) (p : prog sysE R) s :
  starts_with_spawn p -> exists o tr, (run h p s).2 = o :: tr /\ is_spawn o = true.
Proof.
  destruct p as [r|X e k]; [done|]. destruct e; try done. intros _. simpl.
  destruct (h _ (Spawn command) s) as [x s1].
  destruct (run h (k x) s1) as [[r s2] tr]. simpl. eauto.
Qed.

Lemma run_starts_with_check {S R : Type} (h : handler sysE S) (p : prog sysE R) s :
  starts_with_check p -> exists o tr, (run h p s).2 = o :: tr /\ is_check o = true.
Proof.
  destruct p as [r|X e k]; [done|]. destruct e; try done. intros _. simpl.
  destruct (h _ (PathExists path0) s) as [x s1].
  destruct (run h (k x) s1) as [[r s2] tr]. simpl. eauto.
Qed.

(** The body of the loop when the path is missing: the question, then the
    generation. *)
Lemma run_iteration_absent {S : Type} (h : handler sysE S) s version namespace :
  (h _ (PathExists (pacakgePath namespace)) s).1 = false ->
  run h (iteration version namespace) s
  = let '(r, s2, tr) :=
      run h (generate version namespace)
        (h _ (PathExists (pacakgePath namespace)) s).2 in
    (r, s2, Obs (PathExists (pacakgePath namespace)) false :: tr).
Proof.
  intros Hno. unfold Scaffolder.iteration. cbn [bind seq ask run].
  destruct (h _ (PathExists _) s) as [present s1]. simpl in Hno. subst present.
  reflexivity.
Qed.

(** Without a base name nothing is generated: the first statement after
    the check throws. *)
Lemma generate_undefined version namespace :
  moduleBaseName namespace = None ->
  generate version namespace = throw (TypeErrorOnUndefined "toLocaleLowerCase").
Proof. intros Hbase. unfold Scaffolder.generate. by rewrite Hbase. Qed.


Lemma javaPackage_defined family lowcaseModuleName :
  javaPackage (Some family) lowcaseModuleName
  = Ok (if decide (family = "AWS") then "services." +:+ lowcaseModuleName
        else toLocaleLowerCase family +:+ "." +:+ lowcaseModuleName).
Proof.
  unfold javaPackage. destruct (decide (family = "AWS")) as [->|Hne].
  - by rewrite decide_True.
  - rewrite decide_False by congruence. reflexivity.
Qed.

Lemma javaArtifactId_defined family lowcaseModuleName :
  javaArtifactId (Some family) lowcaseModuleName
  = Ok (if decide (family = "AWS") then lowcaseModuleName
        else toLocaleLowerCase family +:+ "-" +:+ lowcaseModuleName).
Proof.
  unfold javaArtifactId. destruct (decide (family = "AWS")) as [->|Hne].
  - by rewrite decide_True.
  - rewrite decide_False by congruence. reflexivity.
Qed.

(** The [i]-th file asked to be written, in a run that got that far. *)
Lemma written_generate_lookup {S : Type} (h : handler sysE S) s version namespace
    family baseName i file :
  moduleFamily namespace = Some family ->
  moduleBaseName namespace = Some baseName ->
  written (run h (generate version namespace) s).2 !! i = Some file ->
  omap (request_of (pacakgePath namespace))
    (module_files version namespace
       (if decide (family = "AWS") then "services." +:+ toLocaleLowerCase baseName
        else toLocaleLowerCase family +:+ "." +:+ toLocaleLowerCase baseName)
       (if decide (family = "AWS") then toLocaleLowerCase baseName
        else toLocaleLowerCase family +:+ "-" +:+ toLocaleLowerCase baseName)
       (toLocaleLowerCase baseName)) !! i = Some file.
Proof.
  intros Hfamily Hbase Hfile.
  eapply prefix_lookup_Some; [exact Hfile|].
  apply written_generate.
  - by rewrite Hbase.
  - rewrite Hfamily. apply javaPackage_defined.
  - rewrite Hfamily. apply javaArtifactId_defined.
Qed.

(** C1. A namespace whose module directory exists costs one existence
    check and nothing else: the body of the loop returns at once, the loop
    goes on with the next namespace from the state the check left, and in
    a run of the whole script a positive check is followed by the next
    check or by the exit with status 0, never by a write or a child.  In
    the in-memory host the world is left exactly as it was. *)
Theorem existing_module_is_skipped :
  (forall (S : Type) (h : handler sysE S) (s : S) version namespace rest,
      (h _ (PathExists (pacakgePath namespace)) s).1 = true ->
      let s1 := (h _ (PathExists (pacakgePath namespace)) s).2 in
      let seen := Obs (PathExists (pacakgePath namespace)) true in
      run h (iteration version namespace) s = (Ok tt, s1, [seen])
      /\ filter (fun o => is_fs_write o || is_spawn o)
           (run h (iteration version namespace) s).2 = []
      /\ run h (for_of (namespace :: rest) (iteration version)) s
         = let '(r, s2, tr) := run h (for_of rest (iteration version)) s1 in
           (r, s2, seen :: tr))
  /\ (forall (S : Type) (h : handler sysE S) (s s' : S) status pre p post,
      run h script s = (status, s', pre ++ Obs (PathExists p) true :: post) ->
      (post = [] /\ status = 0%Z)
      \/ exists o post', post = o :: post' /\ is_check o = true)
  /\ (forall (w : World) version namespace,
      is_Some (fs w !! pacakgePath namespace) ->
      run world (iteration version namespace) w
      = (Ok tt, w, [Obs (PathExists (pacakgePath namespace)) true])).
Proof.
  split; [|split].
  - intros S h s version namespace rest Hyes s1 seen.
    pose proof (run_iteration_present h s version namespace Hyes) as Hrun.
    split; [exact Hrun|]. split; [by rewrite Hrun|].
    rewrite run_for_of, Hrun. fold s1.
    by destruct (run h (for_of rest (iteration version)) s1) as [[r s2] tr].
  - intros S h s s' status pre p post Hrun.
    pose proof (every_node_explained h _ _ (rule_script __dirname)
                  s status s' _ Hrun pre _ post eq_refl) as [k [Hk Hpost]].
    simpl in Hk. destruct Hk as [Hk | Hk].
    + rewrite Hk in Hpost. simpl in Hpost. injection Hpost as <- _ <-. by left.
    + right. destruct (run_starts_with_check h _
                         (state_after h (pre ++ [Obs (PathExists p) true]) s) Hk)
        as (o & tr & Htr & Ho).
      rewrite Hpost in Htr. simpl in Htr. eauto.
  - intros w version namespace Hthere.
    rewrite run_iteration_present; simpl; [reflexivity|].
    by apply bool_decide_eq_true_2.
Qed.

(** C3. In any run of the script, against any host: a child that exits
    with 0 is followed by the next child, by the existence check of the
    next namespace, or by the end of the run with status 0; a child that
    exits with another code (or with none) is followed by exactly one
    [console.error] of an [Error] whose message holds that code, and the
    process ends with status 1 in the state the failure left, with nothing
    else done.  In the in-memory host every directory made before the
    failure is still there when the process ends. *)
Theorem child_exit_status :
  (forall (S : Type) (h : handler sysE S) (s s' : S) status pre command code post,
      run h script s
      = (status, s', pre ++ Obs (Spawn command) (ChildExit code) :: post) ->
      (code = Some 0%Z ->
         (post = [] /\ status = 0%Z)
         \/ exists o post', post = o :: post' /\ (is_spawn o || is_check o) = true)
      /\ (code <> Some 0%Z ->
            let failed :=
              state_after h (pre ++ [Obs (Spawn command) (ChildExit code)]) s in
            post = [Obs (ConsoleError (Error (exit_message code))) tt]
            /\ status = 1%Z
            /\ s' = (h _ (ConsoleError (Error (exit_message code))) failed).2
            /\ includes (string_of_nullable_Z code) (exit_message code) = true))
  /\ (forall (w w' : World) status tr dir,
      run world script w = (status, w', tr) ->
      fs w !! dir = Some Dir \/ Exists (fun o => made_dir o = Some dir) tr ->
      fs w' !! dir = Some Dir)
  /\ (forall (w w' : World) status pre command code post,
      run world script w
      = (status, w', pre ++ Obs (Spawn command) (ChildExit code) :: post) ->
      code <> Some 0%Z ->
      fs w' = fs (state_after world (pre ++ [Obs (Spawn command) (ChildExit code)]) w)).
Proof.
  assert (Hgeneric :
    forall (S : Type) (h : handler sysE S) (s s' : S) status pre command code post,
      run h script s
      = (status, s', pre ++ Obs (Spawn command) (ChildExit code) :: post) ->
      code <> Some 0%Z ->
      post = [Obs (ConsoleError (Error (exit_message code))) tt]
      /\ status = 1%Z
      /\ s' = (h _ (ConsoleError (Error (exit_message code)))
                 (state_after h (pre ++ [Obs (Spawn command) (ChildExit code)]) s)).2).
  { intros S h s s' status pre command code post Hrun Hcode.
    pose proof (every_node_explained h _ _ (rule_script __dirname)
                  s status s' _ Hrun pre _ post eq_refl) as [k [Hk Hpost]].
    simpl in Hk. specialize (Hk (ChildExit code)). simpl in Hk.
    rewrite decide_False in Hk by exact Hcode.
    rewrite Hk in Hpost. simpl in Hpost.
    destruct (h unit (ConsoleError _) _) as [[] s2] eqn:Hh.
    by injection Hpost as <- <- <-. }
  split; [|split].
  - intros S h s s' status pre command code post Hrun. split.
    + intros ->.
      pose proof (every_node_explained h _ _ (rule_script __dirname)
                    s status s' _ Hrun pre _ post eq_refl) as [k [Hk Hpost]].
      simpl in Hk. specialize (Hk (ChildExit (Some 0%Z))). simpl in Hk.
      destruct Hk as [Hk | [Hk | Hk]].
      * rewrite Hk in Hpost. simpl in Hpost. injection Hpost as <- _ <-. by left.
      * right. destruct (run_starts_with_spawn h _
          (state_after h (pre ++ [Obs (Spawn command) (ChildExit (Some 0%Z))]) s) Hk)
          as (o & tr & Htr & Ho).
        rewrite Hpost in Htr. simpl in Htr. exists o, tr. by rewrite Ho.
      * right. destruct (run_starts_with_check h _
          (state_after h (pre ++ [Obs (Spawn command) (ChildExit (Some 0%Z))]) s) Hk)
          as (o & tr & Htr & Ho).
        rewrite Hpost in Htr. simpl in Htr. exists o, tr.
        rewrite Ho. split; [done | apply orb_true_r].
    + intros Hcode failed.
      destruct (Hgeneric S h s s' status pre command code post Hrun Hcode)
        as (Hpost & Hstatus & Hstate).
      repeat split; try done. apply includes_suffix.
  - intros w w' status tr dir Hrun [Hbefore | Hmade].
    + pose proof (run_world_keeps_dirs script w dir Hbefore) as H.
      by rewrite Hrun in H.
    + pose proof (run_world_made_dirs script w dir) as H.
      rewrite Hrun in H. by apply H.
  - intros w w' status pre command code post Hrun Hcode.
    destruct (Hgeneric World world w w' status pre command code post Hrun Hcode)
      as (_ & _ & ->).
    reflexivity.
Qed.

(** C7. When the directory two levels above the script is not named
    [@aws-cdk], the run consists of printing the error and ends with
    status 1: no version is read, no namespace listed, nothing written.
    In every run [main] itself prints no error; the script ends with
    status 0 when [main] returns and, when [main] throws, prints what was
    thrown, once, after everything else, and ends with status 1. *)
Theorem fatal_errors_end_the_process :
  (basename root <> "@aws-cdk" ->
   forall (S : Type) (h : handler sysE S) (s : S),
     run h script s
     = (1%Z, (h _ (ConsoleError wrong_root) s).2, [Obs (ConsoleError wrong_root) tt]))
  /\ (forall (S : Type) (h : handler sysE S) (s : S),
      let '(r, s1, tr) := run h main s in
      Forall (fun o => is_console_error o = false) tr
      /\ run h script s
         = match r with
           | Ok _ => (0%Z, s1, tr)
           | Throw e =>
               (1%Z, (h _ (ConsoleError e) s1).2, tr ++ [Obs (ConsoleError e) tt])
           end).
Proof.
  split.
  - intros Hname S h s. unfold Scaffolder.script, Scaffolder.main.
    rewrite decide_True by exact Hname. simpl.
    by destruct (h unit (ConsoleError wrong_root) s) as [[] s1].
  - intros S h s.
    assert (Hnodes : every_node
              (fun X e _ => match e with ConsoleError _ => False | _ => True end)
              main).
    { eapply every_node_weaken; [|apply rule_main].
      intros X e k. destruct e; simpl; done. }
    pose proof (every_node_Forall h _ main Hnodes s) as Hquiet.
    unfold Scaffolder.script. rewrite run_seq.
    destruct (run h main s) as [[r s1] tr]. simpl in Hquiet. split.
    + eapply Forall_impl; [exact Hquiet|].
      intros [X e x]. by destruct e.
    + destruct r as [[]|e]; simpl; [by rewrite app_nil_r|].
      by destruct (h unit (ConsoleError e) s1) as [[] s2].
Qed.


(** C5. For a namespace that [split] reads as a family and a base name:
    with the family [AWS] the Java artifact is the lowered base name and
    the Java package is [services.] and the lowered base name, neither
    holding the family; with any other family the artifact is the lowered
    family, a hyphen and the lowered base name, and the package the same
    two joined by a dot.  These are the names in the manifest that is
    written first. *)
Theorem java_names_by_family (namespace family baseName : string) :
  moduleFamily namespace = Some family ->
  moduleBaseName namespace = Some baseName ->
  let low := toLocaleLowerCase baseName in
  let artifact :=
    if decide (family = "AWS") then low
    else toLocaleLowerCase family +:+ "-" +:+ low in
  let package :=
    if decide (family = "AWS") then "services." +:+ low
    else toLocaleLowerCase family +:+ "." +:+ low in
  javaArtifactId (moduleFamily namespace) low = Ok artifact
  /\ javaPackage (moduleFamily namespace) low = Ok package
  /\ forall (S : Type) (h : handler sysE S) (s : S) version file data,
       written (run h (generate version namespace) s).2 !! 0%nat = Some (file, data) ->
       exists manifest,
         file = join [pacakgePath namespace; "package.json"]
         /\ data = stringify (JObj manifest) +:+ LF
         /\ ((field "jsii" manifest ≫= get "targets") ≫= get "java")
            = Some (JObj
                [ ("package", JStr ("software.amazon.awscdk." +:+ package));
                  ("maven", JObj
                     [ ("groupId", JStr "software.amazon.awscdk");
                       ("artifactId", JStr artifact) ]) ]).
Proof.
  intros Hfamily Hbase low artifact package.
  rewrite Hfamily.
  split; [apply javaArtifactId_defined|].
  split; [apply javaPackage_defined|].
  intros S h s version file data Hfirst.
  apply (written_generate_lookup h s version namespace family baseName)
    in Hfirst; [|exact Hfamily | exact Hbase].
  injection Hfirst as <- <-. eexists. split; [reflexivity|].
  split; reflexivity.
Qed.

(** C6. For the namespace [Family::Widget] and the version [1.2.3], the
    first file asked to be written is [package.json] in the module
    directory; it holds the serialisation of a manifest whose name is
    [@aws-cdk/family-widget] and whose dependencies and devDependencies are
    all pinned to [^1.2.3]. *)
Theorem manifest_of_family_widget :
  forall (S : Type) (h : handler sysE S) (s : S) file data,
    written (run h (generate "1.2.3" "Family::Widget") s).2 !! 0%nat
    = Some (file, data) ->
    exists manifest dependencies devDependencies,
      file = join [join [root; "family-widget"]; "package.json"]
      /\ data = stringify (JObj manifest) +:+ LF
      /\ field "name" manifest = Some (JStr "@aws-cdk/family-widget")
      /\ field "dependencies" manifest = Some (JObj dependencies)
      /\ field "devDependencies" manifest = Some (JObj devDependencies)
      /\ dependencies <> [] /\ devDependencies <> []
      /\ Forall (fun pin => pin.2 = JStr "^1.2.3") (dependencies ++ devDependencies).
Proof.
  intros S h s file data Hfirst.
  apply (written_generate_lookup h s "1.2.3" "Family::Widget" "Family" "Widget")
    in Hfirst; [|reflexivity | reflexivity].
  injection Hfirst as <- <-. eexists _, _, _.
  split; [reflexivity|]. split; [reflexivity|]. split; [reflexivity|].
  split; [reflexivity|]. split; [reflexivity|]. split; [done|]. split; [done|].
  repeat constructor.
Qed.


(** C9. For a namespace without separator the family is the whole
    namespace and the base name is undefined; the module name is the
    lowered namespace followed by [-undefined], and that is the directory
    asked for.  When the directory is missing, the loop throws the
    [TypeError] of calling [toLocaleLowerCase] on [undefined] right after
    the check, with nothing written and no further namespace visited; a
    run of the script that meets such a namespace first prints that error
    and ends with status 1. *)
Theorem namespace_without_separator (namespace : string) :
  includes "::" namespace = false ->
  let name := toLocaleLowerCase namespace +:+ "-undefined" in
  let thrown := TypeErrorOnUndefined "toLocaleLowerCase" in
  moduleFamily namespace = Some namespace
  /\ moduleBaseName namespace = None
  /\ moduleName namespace = name
  /\ pacakgePath namespace = join [root; name]
  /\ (forall (S : Type) (h : handler sysE S) (s : S) version rest,
        (h _ (PathExists (join [root; name])) s).1 = false ->
        run h (for_of (namespace :: rest) (iteration version)) s
        = (Throw thrown, (h _ (PathExists (join [root; name])) s).2,
           [Obs (PathExists (join [root; name])) false]))
  /\ (forall (S : Type) (h : handler sysE S) (s s1 s2 s3 : S) version rest,
        basename root = "@aws-cdk" ->
        h _ RequirePackageVersion s = (Ok version, s1) ->
        h _ Namespaces s1 = (Ok (namespace :: rest), s2) ->
        h _ (PathExists (join [root; name])) s2 = (false, s3) ->
        run h script s
        = (1%Z, (h _ (ConsoleError thrown) s3).2,
           [ Obs RequirePackageVersion (Ok version);
             Obs Namespaces (Ok (namespace :: rest));
             Obs (PathExists (join [root; name])) false;
             Obs (ConsoleError thrown) tt ])).
Proof.
  intros Hfree name thrown.
  assert (Hfamily : moduleFamily namespace = Some namespace).
  { unfold moduleFamily. by rewrite (split_one namespace Hfree). }
  assert (Hbase : moduleBaseName namespace = None).
  { unfold moduleBaseName. by rewrite (split_one namespace Hfree). }
  assert (Hname : moduleName namespace = name).
  { unfold moduleName. rewrite Hfamily, Hbase. simpl string_of_undefinable.
    by rewrite lower_app. }
  assert (Hpath : pacakgePath namespace = join [root; name]).
  { unfold Scaffolder.pacakgePath. by rewrite Hname. }
  assert (Hloop : forall (S : Type) (h : handler sysE S) (s : S) version rest,
             (h _ (PathExists (join [root; name])) s).1 = false ->
             run h (for_of (namespace :: rest) (iteration version)) s
             = (Throw thrown, (h _ (PathExists (join [root; name])) s).2,
                [Obs (PathExists (join [root; name])) false])).
  { intros S h s version rest Hno. rewrite run_for_of.
    rewrite run_iteration_absent by (by rewrite Hpath).
    rewrite generate_undefined by exact Hbase. rewrite Hpath. reflexivity. }
  repeat split; try done.
  intros S h s s1 s2 s3 version rest Hroot Hversion Hlist Hno.
  unfold Scaffolder.script. rewrite run_seq. unfold Scaffolder.main.
  rewrite decide_False by (by intros H; apply H).
  rewrite run_bind, run_perform, Hversion. cbn [fst snd].
  rewrite run_bind, run_perform, Hlist. cbn [fst snd].
  rewrite Hloop by (by rewrite Hno). rewrite Hno. cbn [fst snd app run].
  by destruct (h unit (ConsoleError thrown) s3) as [[] s4].
Qed.

(** C10, amended.  [write] asks for one file whose data is its argument
    rendered by shape and one line feed: a string without its leading white
    space, an array joined by line feeds, an object serialised with an
    indentation of two spaces; for any other value it throws after the
    directory is made, and asks for no file.  Against any host and for any
    argument, a call of [write] asks for no file or for this one file, whose
    data ends with the line feed that [write] appends, and ends with a line
    feed that no other line feed precedes exactly when the rendered argument
    does not end with a line feed itself.  That is so for every object, and
    for every file that a run of the script asks to be written. *)
Theorem write_appends_one_newline :
  (forall (S : Type) (h : handler sysE S) (s : S) pacakgePath relativePath c,
      let fullPath := join [pacakgePath; relativePath] in
      (h _ (Mkdirp (dirname fullPath)) s).1 = Ok tt ->
      let '(r, _, tr) := run h (write pacakgePath relativePath c) s in
      match c with
      | CString text => written tr = [(fullPath, trimLeft text +:+ LF)]
      | CArray lines => written tr = [(fullPath, Js.join LF lines +:+ LF)]
      | CObject fields => written tr = [(fullPath, stringify (JObj fields) +:+ LF)]
      | COther shown =>
          written tr = []
          /\ r = Throw (Error ("Invalid type of contents: " +:+ shown))
      end)
  /\ (forall (S : Type) (h : handler sysE S) (s : S) pacakgePath relativePath c,
      let tr := (run h (write pacakgePath relativePath c) s).2 in
      written tr = []
      \/ exists data,
           data_of c = Ok data
           /\ written tr = [(join [pacakgePath; relativePath], data +:+ LF)]
           /\ endsWith LF (data +:+ LF) = true
           /\ one_trailing_newline (data +:+ LF) = negb (endsWith LF data))
  /\ (forall fields,
      one_trailing_newline (stringify (JObj fields) +:+ LF) = true)
  /\ (forall (S : Type) (h : handler sysE S) (s : S),
      Forall (fun file => one_trailing_newline file.2 = true)
        (written (run h script s).2)).
Proof.
  split; [|split; [|split]].
  - intros S h s pkg rel c fullPath Hdir.
    unfold write. fold fullPath. cbn [bind seq perform run].
    destruct (h _ (Mkdirp _) s) as [made s1]. simpl in Hdir. subst made.
    destruct c as [text|lines|fields|shown]; simpl; try done;
      by destruct (h _ (WriteFile _ _) s1) as [r s2].
  - intros S h s pkg rel c. unfold write. cbn [bind seq perform run].
    destruct (h _ (Mkdirp _) s) as [[[]|e] s1]; [|by left].
    destruct (data_of c) as [data|e] eqn:Hdata; [|by left].
    right. exists data. split; [reflexivity|].
    split; [|split; [apply endsWith_LF_snoc | apply one_trailing_newline_snoc]].
    simpl. by destruct (h _ (WriteFile _ _) s1) as [r s2].
  - intros fields. rewrite one_trailing_newline_snoc.
    destruct fields as [|field fields]; [reflexivity|].
    destruct (stringify_object_tail field fields) as [head ->].
    by rewrite endsWith_LF_brace.
  - intros S h s.
    assert (Hnodes : every_node
              (fun X e _ =>
                 match e with
                 | WriteFile _ data => one_trailing_newline data = true
                 | _ => True
                 end) script).
    { eapply every_node_weaken; [|apply rule_script].
      intros X e k. destruct e; simpl; done. }
    pose proof (every_node_Forall h _ script Hnodes s) as Hall.
    revert Hall. generalize (run h script s).2 as tr.
    induction tr as [|o tr IH]; intros Hall; [constructor|].
    apply Forall_cons in Hall as [Ho Hall]. specialize (IH Hall).
    unfold written in *. cbn [omap list_omap].
    destruct o as [X e x]. destruct e; simpl; try exact IH.
    by constructor.
Qed.
End Run.

(** ** The properties at work in the repository of [Fixture] *)

Import Fixture.

(** A whole run: [aws-ec2] is there and is skipped, [family-widget] is
    generated, bootstrapped and built, and the process ends with status 0. *)
Example run_in_the_repository :
  let r := run world (script (path := Posix.path) build_tools)
             (repo ["AWS::EC2"; "Family::Widget"] (exits_with 0)) in
  r.1.1 = 0%Z
  /\ spawned r.1.2
     = [ "/repo/node_modules/lerna/cli.js bootstrap --scope @aws-cdk/family-widget";
         "/repo/node_modules/lerna/cli.js run --include-filtered-dependencies --progress build --scope @aws-cdk/family-widget" ]
  /\ stdout r.1.2 = ["generating module for @aws-cdk/family-widget..."]
  /\ stderr r.1.2 = []
  /\ fs r.1.2 !! "/repo/packages/@aws-cdk/family-widget/lib/index.ts"
     = Some (File ("// Family::Widget CloudFormation Resources:" +:+ LF
                     +:+ "export * from './widget.generated';" +:+ LF))
  /\ fs r.1.2 !! "/repo/packages/@aws-cdk/family-widget/LICENSE"
     = Some (File "Apache-2.0")
  /\ fs r.1.2 !! "/repo/packages/@aws-cdk/aws-ec2/package.json" = None.
Proof. vm_compute. repeat split; reflexivity. Qed.

(** The same run with children that exit with 3: the first child of the
    first missing module ends it. *)
Example failing_run_in_the_repository :
  let r := run world (script (path := Posix.path) build_tools)
             (repo ["A::B"; "C::D"] (exits_with 3)) in
  r.1.1 = 1%Z
  /\ spawned r.1.2 = ["/repo/node_modules/lerna/cli.js bootstrap --scope @aws-cdk/a-b"]
  /\ stderr r.1.2 = [Error "non-zero exit code: 3"]
  /\ fs r.1.2 !! "/repo/packages/@aws-cdk/a-b" = Some Dir
  /\ fs r.1.2 !! "/repo/packages/@aws-cdk/c-d" = None.
Proof. vm_compute. repeat split; reflexivity. Qed.

(** Only the first two pieces of a namespace are read. *)
Example module_name_of_three_pieces :
  moduleName "AWS::EC2::Instance" = "aws-ec2"
  /\ moduleName "Alexa::ASK" = "alexa-ask"
  /\ moduleName "Alexa" = "alexa-undefined".
Proof. repeat split; reflexivity. Qed.

Example posix_paths :
  join (Path := Posix.path) [build_tools; ".."; ".."] = "/repo/packages/@aws-cdk"
  /\ basename (Path := Posix.path) "/repo/packages/@aws-cdk" = "@aws-cdk"
  /\ dirname (Path := Posix.path) "/repo/packages/@aws-cdk/a-b/lib/index.ts"
     = "/repo/packages/@aws-cdk/a-b/lib"
  /\ dirname (Path := Posix.path) "/repo" = "/"
  /\ join (Path := Posix.path) ["/repo"; "a//b/./c/../d"] = "/repo/a/b/d".
Proof. repeat split; reflexivity. Qed.

Lemma existing_module_is_skipped_witness :
  let w := repo ["AWS::EC2"; "A::B"] (exits_with 0) in
  is_Some (fs w !! "/repo/packages/@aws-cdk/aws-ec2")
  /\ run world (iteration (path := Posix.path) build_tools "1.2.3" "AWS::EC2") w
     = (Ok tt, w, [Obs (PathExists "/repo/packages/@aws-cdk/aws-ec2") true]).
Proof.
  intros w.
  assert (Hthere :
    is_Some (fs w !! pacakgePath (path := Posix.path) build_tools "AWS::EC2")).
  { vm_compute. eexists. reflexivity. }
  split; [exact Hthere|].
  exact (proj2 (proj2 (existing_module_is_skipped (path := Posix.path) build_tools))
           w "1.2.3" "AWS::EC2" Hthere).
Defined.

Lemma child_exit_status_witness :
  let r := run world (script (path := Posix.path) build_tools)
             (repo ["A::B"] (exits_with 3)) in
  drop 20 r.2 = [Obs (ConsoleError (Error (exit_message (Some 3%Z)))) tt]
  /\ r.1.1 = 1%Z.
Proof.
  intros r.
  destruct (proj1 (child_exit_status (path := Posix.path) build_tools)
              World world (repo ["A::B"] (exits_with 3)) r.1.2 r.1.1
              (take 19 r.2)
              "/repo/node_modules/lerna/cli.js bootstrap --scope @aws-cdk/a-b"
              (Some 3%Z) (drop 20 r.2)) as [_ Hfailed].
  { vm_compute. reflexivity. }
  destruct (Hfailed ltac:(discriminate)) as (Hpost & Hstatus & _).
  split; assumption.
Defined.

Lemma fatal_errors_end_the_process_witness :
  basename (Path := Posix.path) (root (path := Posix.path) moved) <> "@aws-cdk"
  /\ run world (script (path := Posix.path) moved) (repo ["A::B"] (exits_with 0))
     = (1%Z,
        (world _ (ConsoleError (wrong_root (path := Posix.path) moved))
           (repo ["A::B"] (exits_with 0))).2,
        [Obs (ConsoleError (wrong_root (path := Posix.path) moved)) tt]).
Proof.
  assert (Hname :
    basename (Path := Posix.path) (root (path := Posix.path) moved) <> "@aws-cdk").
  { vm_compute. discriminate. }
  split; [exact Hname|].
  exact (proj1 (fatal_errors_end_the_process (path := Posix.path) moved) Hname
           World world (repo ["A::B"] (exits_with 0))).
Defined.


Lemma java_names_by_family_witness :
  moduleFamily "Alexa::ASK" = Some "Alexa"
  /\ moduleBaseName "Alexa::ASK" = Some "ASK"
  /\ javaArtifactId (moduleFamily "Alexa::ASK") (toLocaleLowerCase "ASK")
     = Ok (if decide ("Alexa" = "AWS") then toLocaleLowerCase "ASK"
           else toLocaleLowerCase "Alexa" +:+ "-" +:+ toLocaleLowerCase "ASK")
  /\ javaArtifactId (moduleFamily "Alexa::ASK") (toLocaleLowerCase "ASK")
     = Ok "alexa-ask"
  /\ javaArtifactId (moduleFamily "AWS::EC2") (toLocaleLowerCase "EC2") = Ok "ec2".
Proof.
  split; [reflexivity|]. split; [reflexivity|].
  split; [|split; reflexivity].
  exact (proj1 (java_names_by_family (path := Posix.path) build_tools
                  "Alexa::ASK" "Alexa" "ASK" eq_refl eq_refl)).
Defined.

Lemma manifest_of_family_widget_witness :
  let tr := (run world (generate (path := Posix.path) build_tools "1.2.3" "Family::Widget")
               (repo [] (exits_with 0))).2 in
  let first := default (EmptyString, EmptyString) (written tr !! 0%nat) in
  written tr !! 0%nat = Some first
  /\ exists manifest,
       first.2 = stringify (JObj manifest) +:+ LF
       /\ field "name" manifest = Some (JStr "@aws-cdk/family-widget").
Proof.
  intros tr first.
  assert (Hfirst : written tr !! 0%nat = Some (first.1, first.2)).
  { vm_compute. reflexivity. }
  split; [by destruct first|].
  destruct (manifest_of_family_widget (path := Posix.path) build_tools
              World world (repo [] (exits_with 0)) first.1 first.2 Hfirst)
    as (manifest & _ & _ & _ & Hdata & Hname & _).
  exists manifest. split; assumption.
Defined.


Lemma namespace_without_separator_witness :
  includes "::" "Family" = false
  /\ moduleBaseName "Family" = None
  /\ moduleName "Family" = toLocaleLowerCase "Family" +:+ "-undefined".
Proof.
  split; [reflexivity|].
  destruct (namespace_without_separator (path := Posix.path) build_tools
              "Family" eq_refl) as (_ & Hbase & Hname & _).
  split; assumption.
Defined.

Lemma write_appends_one_newline_witness :
  let w := repo [] (exits_with 0) in
  let full := join (Path := Posix.path) ["/repo/packages/@aws-cdk/a-b"; "lib/x.ts"] in
  (world _ (Mkdirp (dirname (Path := Posix.path) full)) w).1 = Ok tt
  /\ written (run world (write (path := Posix.path) "/repo/packages/@aws-cdk/a-b"
                           "lib/x.ts" (CArray ["a"; "b"])) w).2
     = [(full, Js.join LF ["a"; "b"] +:+ LF)].
Proof.
  intros w full.
  assert (Hdir : (world _ (Mkdirp (dirname (Path := Posix.path) full)) w).1 = Ok tt).
  { vm_compute. reflexivity. }
  split; [exact Hdir|].
  pose proof (proj1 (write_appends_one_newline (path := Posix.path) build_tools)
                World world w "/repo/packages/@aws-cdk/a-b" "lib/x.ts"
                (CArray ["a"; "b"]) Hdir) as Hwritten.
  destruct (run world (write (path := Posix.path) "/repo/packages/@aws-cdk/a-b"
                         "lib/x.ts" (CArray ["a"; "b"])) w) as [[r w'] tr].
  exact Hwritten.
Defined.

(** C10 as it is stated fails.  Handed the string of an [a] and a line
    feed, or the array of [a] and the empty string, [write] returns and
    leaves on disk a file of an [a] and two line feeds: it does not end with
    exactly one trailing newline.  So not every file that [write] asks for
    ends with exactly one. *)
Lemma write_can_leave_two_trailing_newlines :
  run world (write (path := Posix.path) "/repo/packages/@aws-cdk/a-b" "notes.txt"
               (CString ("a" +:+ LF))) (repo [] (exits_with 0))
  = (Ok tt,
     with_fs (repo [] (exits_with 0))
       (<["/repo/packages/@aws-cdk/a-b/notes.txt" := File ("a" +:+ LF +:+ LF)]>
          (<["/repo/packages/@aws-cdk/a-b" := Dir]> (fs (repo [] (exits_with 0))))),
     [ Obs (Mkdirp "/repo/packages/@aws-cdk/a-b") (Ok tt);
       Obs (WriteFile "/repo/packages/@aws-cdk/a-b/notes.txt" ("a" +:+ LF +:+ LF))
         (Ok tt) ])
  /\ written (run world (write (path := Posix.path) "/repo/packages/@aws-cdk/a-b"
                           "notes.txt" (CArray ["a"; EmptyString]))
                (repo [] (exits_with 0))).2
     = [("/repo/packages/@aws-cdk/a-b/notes.txt", "a" +:+ LF +:+ LF)]
  /\ endsWith (LF +:+ LF) ("a" +:+ LF +:+ LF) = true
  /\ one_trailing_newline ("a" +:+ LF +:+ LF) = false
  /\ ~ (forall (S : Type) (h : handler sysE S) (s : S) pacakgePath relativePath c,
          Forall (fun file => one_trailing_newline file.2 = true)
            (written (run h (write (path := Posix.path) pacakgePath relativePath c)
                        s).2)).
Proof.
  split; [|split; [|split; [|split]]]; try (vm_compute; reflexivity).
  intros Hall.
  specialize (Hall World world (repo [] (exits_with 0))
                "/repo/packages/@aws-cdk/a-b" "notes.txt" (CString ("a" +:+ LF))).
  apply Forall_cons in Hall as [Hone _]. vm_compute in Hone. discriminate Hone.
Qed.

End ScaffolderSpec.

(* ===================================================================== *)
(** * Properties of the facade *)
(* ===================================================================== *)

Module FacadeSpec.
Import Js Eff Eff.Notations Facade EffFacts.

Section Forwarding.
Context {Construct IRole ServiceNamespace ScalableTarget : Type}.
Context {ScalingSchedule BasicStepScalingPolicyProps
         BasicTargetTrackingScalingPolicyProps : Type}.

Local Abbreviation E :=
  (targetE Construct IRole ServiceNamespace ScalableTarget ScalingSchedule
     BasicStepScalingPolicyProps BasicTargetTrackingScalingPolicyProps).
Local Abbreviation attribute :=
  (BaseScalableAttribute Construct IRole ServiceNamespace ScalableTarget).
Local Abbreviation attribute_props :=
  (BaseScalableAttributeProps IRole ServiceNamespace).

(** C2. Each of the three methods is one call of the method of the same
    name on the target the attribute owns, with the identifier and the
    properties it was given; what the target answers (or throws) is what
    the method answers, and the state the call leaves is the state the
    method leaves.  When the base constructor has returned, the constructor
    makes one target, named [Target], under the new construct, with the
    caller's namespace, dimension, resource, role and maximum; its minimum
    capacity is the caller's when the caller gave one, and 1 otherwise. *)
Theorem facade_forwards_to_its_target :
  (forall (S : Type) (h : handler E S) (s : S) (self : attribute) id,
      (forall props,
          let call := TargetScaleOnSchedule (target self) id props in
          run h (scaleOnSchedule self id props) s
          = ((h _ call s).1, (h _ call s).2, [Obs call (h _ call s).1]))
      /\ (forall props,
          let call := TargetScaleOnMetric (target self) id props in
          run h (scaleOnMetric self id props) s
          = ((h _ call s).1, (h _ call s).2, [Obs call (h _ call s).1]))
      /\ (forall props,
          let call := TargetScaleToTrackMetric (target self) id props in
          run h (scaleToTrackMetric self id props) s
          = ((h _ call s).1, (h _ call s).2, [Obs call (h _ call s).1])))
  /\ (forall (S : Type) (h : handler E S) (s s1 : S) parent id
        (props : attribute_props) this,
      h _ (ConstructSuper parent id) s = (Ok this, s1) ->
      exists made_with,
        omap new_target_props (run h (constructor parent id props) s).2 = [made_with]
        /\ target_serviceNamespace made_with = serviceNamespace props
        /\ target_scalableDimension made_with = dimension props
        /\ target_resourceId made_with = resourceId props
        /\ target_role made_with = role props
        /\ target_maxCapacity made_with = maxCapacity (scaling props)
        /\ (forall given, minCapacity (scaling props) = Some given ->
              target_minCapacity made_with = given)
        /\ (minCapacity (scaling props) = None ->
              target_minCapacity made_with = 1%Z)
        /\ let request := NewScalableTarget this "Target" made_with in
           run h (constructor parent id props) s
           = (match (h _ request s1).1 with
              | Ok made => Ok {| this := this; props := props; target := made |}
              | Throw e => Throw e
              end,
              (h _ request s1).2,
              [Obs (ConstructSuper parent id) (Ok this);
               Obs request (h _ request s1).1])).
Proof.
  split.
  - intros S h s self id. repeat split; intros props; apply run_perform.
  - intros S h s s1 parent id props this Hsuper.
    unfold constructor. rewrite run_bind, run_perform, Hsuper. cbn [fst snd].
    rewrite run_bind, run_perform. cbn [fst snd].
    match goal with
    | |- context [NewScalableTarget this "Target" ?p] => exists p
    end.
    destruct (h _ (NewScalableTarget _ _ _) s1) as [[made|e] s2]; simpl;
      repeat split; try done.
    all: try (intros given ->; reflexivity).
    all: try (intros ->; reflexivity).
Qed.
End Forwarding.

(** ** The property at work against a test double *)

Lemma facade_forwards_to_its_target_witness :
  let props : BaseScalableAttributeProps unit string :=
    {| scaling := {| minCapacity := None; maxCapacity := 10%Z |};
       serviceNamespace := "dynamodb";
       resourceId := "table/T";
       dimension := "dynamodb:table:ReadCapacityUnits";
       role := tt |} in
  let h : handler (targetE nat unit string nat unit unit unit) unit :=
    accept_all 1%nat 2%nat in
  h _ (ConstructSuper 0%nat "Scaling") tt = (Ok 1%nat, tt)
  /\ exists made_with,
       omap new_target_props (run h (constructor 0%nat "Scaling" props) tt).2
       = [made_with]
       /\ target_minCapacity made_with = 1%Z.
Proof.
  intros props h. split; [reflexivity|].
  destruct (proj2 (facade_forwards_to_its_target
                     (Construct := nat) (IRole := unit) (ServiceNamespace := string)
                     (ScalableTarget := nat) (ScalingSchedule := unit)
                     (BasicStepScalingPolicyProps := unit)
                     (BasicTargetTrackingScalingPolicyProps := unit))
              unit h tt tt 0%nat "Scaling" props 1%nat eq_refl)
    as (made_with & Hmade & _ & _ & _ & _ & _ & _ & Hdefault & _).
  exists made_with. split; [exact Hmade | by apply Hdefault].
Defined.

End FacadeSpec.

(* ===================================================================== *)
(** * Properties of whole runs *)
(* ===================================================================== *)

Module RunsSpec.
Import Js Eff Eff.Notations Node Scaffolder Runs.
Import JsFacts EffFacts ScaffolderFacts.

(** ** Failing fast *)

Lemma fail_fast_bind {A B : Type} (m : prog sysE (result A))
    (f : A -> prog sysE (result B)) :
  every_node (fail_fast throw) m ->
  (forall a, every_node (fail_fast throw) (f a)) ->
  every_node (fail_fast throw) (bind m f).
Proof.
  intros Hm Hf. unfold bind. eapply every_node_seq; [exact Hm | | ].
  - intros X e k. destruct e; simpl; try done; intros Hk err; by rewrite Hk.
  - intros [a|e]; [apply Hf | exact I].
Qed.

Lemma fail_fast_for_of {A : Type} (xs : list A) (body : A -> prog sysE (result unit)) :
  (forall x, every_node (fail_fast throw) (body x)) ->
  every_node (fail_fast throw) (for_of xs body).
Proof.
  intros Hbody. induction xs as [|x xs IH]; [exact I|].
  cbn [for_of]. apply fail_fast_bind; [apply Hbody | intros _; exact IH].
Qed.

Lemma fail_fast_exec command : every_node (fail_fast throw) (exec command).
Proof. simpl. split; [done|]. intros [e|code]; simpl; [done | by case_decide]. Qed.

Lemma omap_none {A B : Type} (f : A -> option B) (l : list A) :
  Forall (fun a => f a = None) l -> omap f l = [].
Proof.
  induction l as [|a l IH]; intros Hall; [reflexivity|].
  apply Forall_cons in Hall as [Ha Hall].
  change (omap f (a :: l)) with
    (match f a with Some b => b :: omap f l | None => omap f l end).
  rewrite Ha. by apply IH.
Qed.

Section Run.
Context {path : Path}.
Variable __dirname : string.

Local Abbreviation pacakgePath := (pacakgePath __dirname).
Local Abbreviation iteration := (iteration __dirname).
Local Abbreviation generate := (generate __dirname).
Local Abbreviation script := (script __dirname).
Local Abbreviation main := (main __dirname).
Local Abbreviation root := (root __dirname).

Lemma fail_fast_write pacakgePath relativePath c :
  every_node (fail_fast throw) (write pacakgePath relativePath c).
Proof.
  unfold write. apply fail_fast_bind; [simpl; done | intros _].
  destruct (data_of c) as [data|e]; simpl; done.
Qed.

Lemma fail_fast_generate version namespace :
  every_node (fail_fast throw) (generate version namespace).
Proof.
  unfold Scaffolder.generate. cbv zeta.
  do 3 (apply fail_fast_bind; [exact I | intros ?]).
  apply fail_fast_bind; [simpl; done | intros _].
  do 6 (apply fail_fast_bind; [apply fail_fast_write | intros _]).
  apply fail_fast_bind; [simpl; done | intros files].
  apply fail_fast_bind; [apply fail_fast_for_of; intros file; simpl; done | intros _].
  apply fail_fast_bind; [simpl; done | intros resolved].
  apply fail_fast_bind; [apply fail_fast_exec | intros _; apply fail_fast_exec].
Qed.

Lemma fail_fast_main : every_node (fail_fast throw) main.
Proof.
  unfold Scaffolder.main. case_decide; [exact I|].
  apply fail_fast_bind; [simpl; done | intros version].
  apply fail_fast_bind; [simpl; done | intros namespaces].
  apply fail_fast_for_of. intros namespace. unfold Scaffolder.iteration.
  apply fail_fast_bind; [simpl; done | intros [|]];
    [exact I | apply fail_fast_generate].
Qed.

Lemma fail_fast_script :
  every_node (fail_fast (fun e => Vis (ConsoleError e) (fun _ => Ret 1%Z))) script.
Proof.
  unfold Scaffolder.script. eapply every_node_seq; [apply fail_fast_main | | ].
  - intros X e k. destruct e; simpl; try done; intros Hk err; by rewrite Hk.
  - intros [[]|e]; simpl; done.
Qed.

(** X1. In any run of the script, against any host, a child that emits
    ['error'] (it could not be spawned) is followed by exactly one
    [console.error] of the very value it emitted, and the process ends with
    status 1 in the state that left: no further child, check or write. *)
Theorem child_error_ends_the_process :
  forall (S : Type) (h : handler sysE S) (s s' : S) status pre o post err,
    run h script s = (status, s', pre ++ o :: post) ->
    spawn_error o = Some err ->
    post = [Obs (ConsoleError err) tt]
    /\ status = 1%Z
    /\ s' = (h _ (ConsoleError err) (state_after h (pre ++ [o]) s)).2.
Proof.
  intros S h s s' status pre o post err Hrun Herr.
  pose proof (every_node_explained h _ _ (rule_script __dirname)
                s status s' _ Hrun pre o post eq_refl) as Hex.
  destruct o as [X e x]. destruct e; try discriminate Herr.
  destruct x as [e|code]; [|discriminate Herr]. injection Herr as ->.
  destruct Hex as [k [Hk Hpost]]. simpl in Hk.
  specialize (Hk (ChildError err)). simpl in Hk.
  rewrite Hk in Hpost. simpl in Hpost.
  destruct (h unit (ConsoleError err) _) as [[] s2] eqn:Hh.
  by injection Hpost as <- <- <-.
Qed.

(** X2. In any run of the script, against any host, as soon as one of
    [require], the listing of the namespaces, [mkdirp], [writeFile],
    [readdir], [copy] or [require.resolve] rejects, what follows is exactly
    one [console.error] of what it rejected with and the end of the process
    with status 1: nothing is retried, cleaned up or continued. *)
Theorem host_failure_ends_the_process :
  forall (S : Type) (h : handler sysE S) (s s' : S) status pre o post err,
    run h script s = (status, s', pre ++ o :: post) ->
    rejection o = Some err ->
    post = [Obs (ConsoleError err) tt]
    /\ status = 1%Z
    /\ s' = (h _ (ConsoleError err) (state_after h (pre ++ [o]) s)).2.
Proof.
  intros S h s s' status pre o post err Hrun Herr.
  pose proof (every_node_explained h _ _ fail_fast_script
                s status s' _ Hrun pre o post eq_refl) as Hex.
  destruct o as [X e x].
  destruct e; try discriminate Herr;
    (destruct x as [a|e]; [discriminate Herr|]); injection Herr as ->;
    destruct Hex as [k [Hk Hpost]]; simpl in Hk; rewrite Hk in Hpost;
    simpl in Hpost;
    destruct (h unit (ConsoleError err) _) as [[] s2] eqn:Hh;
    by injection Hpost as <- <- <-.
Qed.

(** ** Runs that return *)

Lemma run_bind_Ok {S A B : Type} (h : handler sysE S) (m : prog sysE (result A))
    (f : A -> prog sysE (result B)) s b s' tr :
  run h (bind m f) s = (Ok b, s', tr) ->
  exists a s1 tr1 tr2,
    run h m s = (Ok a, s1, tr1) /\ run h (f a) s1 = (Ok b, s', tr2)
    /\ tr = tr1 ++ tr2.
Proof.
  rewrite run_bind. destruct (run h m s) as [[[a|e] s1] tr1]; [|discriminate].
  destruct (run h (f a) s1) as [[b' s2] tr2] eqn:Hf.
  intros [= -> -> <-]. eauto 10.
Qed.

Lemma run_lift_Ok {S A : Type} (h : handler sysE S) (r : result A) s a s' tr :
  run h (lift r) s = (Ok a, s', tr) -> r = Ok a /\ tr = [].
Proof. simpl. by intros [= -> _ <-]. Qed.

Lemma run_perform_Ok {S A : Type} (h : handler sysE S) (e : sysE (result A))
    s a s' tr :
  run h (perform e) s = (Ok a, s', tr) -> tr = [Obs e (Ok a)].
Proof. rewrite run_perform. intros [= Ha _ <-]. by rewrite Ha. Qed.

Lemma run_log {S : Type} (h : handler sysE S) line s r s' tr :
  run h (ask (ConsoleLog line)) s = (r, s', tr) -> tr = [Obs (ConsoleLog line) tt].
Proof.
  unfold ask. simpl. destruct (h _ (ConsoleLog line) s) as [[] s1].
  by intros [= _ _ <-].
Qed.

Lemma run_exec_Ok {S : Type} (h : handler sysE S) command s u s' tr :
  run h (exec command) s = (Ok u, s', tr) ->
  tr = [Obs (Spawn command) (ChildExit (Some 0%Z))].
Proof.
  unfold exec. simpl. destruct (h _ (Spawn command) s) as [[e|code] s1]; simpl.
  - discriminate.
  - case_decide as Hcode; simpl; [|discriminate]. subst code. by intros [= _ _ <-].
Qed.

Lemma run_write_Ok {S : Type} (h : handler sysE S) pkg file s u s' tr :
  run h (write pkg file.1 file.2) s = (Ok u, s', tr) ->
  tr = write_trace pkg file.
Proof.
  unfold write, write_trace. intros Hrun.
  apply run_bind_Ok in Hrun as ([] & s1 & tr1 & tr2 & Hdir & Hrun & ->).
  apply run_perform_Ok in Hdir as ->.
  apply run_bind_Ok in Hrun as (data & s2 & tr3 & tr4 & Hdata & Hrun & ->).
  apply run_lift_Ok in Hdata as [-> ->].
  destruct u. by apply run_perform_Ok in Hrun as ->.
Qed.

Lemma run_copies_Ok {S : Type} (h : handler sysE S) (src dest : string -> string)
    (files : list string) :
  forall s u s' tr,
    run h (for_of files (fun file => perform (Copy (src file) (dest file)))) s
    = (Ok u, s', tr) ->
    tr = List.map (fun file => Obs (Copy (src file) (dest file)) (Ok tt)) files.
Proof.
  induction files as [|file files IH]; intros s u s' tr Hrun.
  - simpl in Hrun. by injection Hrun as _ _ <-.
  - cbn [for_of] in Hrun.
    apply run_bind_Ok in Hrun as ([] & s1 & tr1 & tr2 & Hone & Hrest & ->).
    apply run_perform_Ok in Hone as ->. by rewrite (IH _ _ _ _ Hrest).
Qed.

(** The generation that returns has the whole trace of a success. *)
Lemma generate_returns :
  forall (S : Type) (h : handler sysE S) (s s' : S) version namespace u tr,
    run h (generate version namespace) s = (Ok u, s', tr) ->
    exists baseName javaPackage javaArtifactId files resolved,
      moduleBaseName namespace = Some baseName
      /\ Scaffolder.javaPackage (moduleFamily namespace) (toLocaleLowerCase baseName)
         = Ok javaPackage
      /\ Scaffolder.javaArtifactId (moduleFamily namespace) (toLocaleLowerCase baseName)
         = Ok javaArtifactId
      /\ tr = successful_generation __dirname version namespace javaPackage
                javaArtifactId (toLocaleLowerCase baseName) files resolved.
Proof.
  intros S h s s' version namespace u tr Hrun.
  unfold Scaffolder.generate in Hrun. cbv zeta in Hrun.
  apply run_bind_Ok in Hrun as (low & s1 & t1 & t1' & H1 & Hrun & ->).
  apply run_lift_Ok in H1 as [Hlow ->].
  apply run_bind_Ok in Hrun as (jp & s2 & t2 & t2' & H2 & Hrun & ->).
  apply run_lift_Ok in H2 as [Hjp ->].
  apply run_bind_Ok in Hrun as (ja & s3 & t3 & t3' & H3 & Hrun & ->).
  apply run_lift_Ok in H3 as [Hja ->].
  apply run_bind_Ok in Hrun as ([] & s4 & t4 & t4' & H4 & Hrun & ->).
  apply run_log in H4 as ->.
  apply run_bind_Ok in Hrun as ([] & s5 & t5 & t5' & H5 & Hrun & ->).
  apply (run_write_Ok h _ ("package.json", _)) in H5 as ->.
  apply run_bind_Ok in Hrun as ([] & s6 & t6 & t6' & H6 & Hrun & ->).
  apply (run_write_Ok h _ (".gitignore", _)) in H6 as ->.
  apply run_bind_Ok in Hrun as ([] & s7 & t7 & t7' & H7 & Hrun & ->).
  apply (run_write_Ok h _ (".npmignore", _)) in H7 as ->.
  apply run_bind_Ok in Hrun as ([] & s8 & t8 & t8' & H8 & Hrun & ->).
  apply (run_write_Ok h _ ("lib/index.ts", _)) in H8 as ->.
  apply run_bind_Ok in Hrun as ([] & s9 & t9 & t9' & H9 & Hrun & ->).
  apply (run_write_Ok h _ ("test/test." +:+ low +:+ ".ts", _)) in H9 as ->.
  apply run_bind_Ok in Hrun as ([] & s10 & t10 & t10' & H10 & Hrun & ->).
  apply (run_write_Ok h _ ("README.md", _)) in H10 as ->.
  apply run_bind_Ok in Hrun as (files & s11 & t11 & t11' & H11 & Hrun & ->).
  apply run_perform_Ok in H11 as ->.
  apply run_bind_Ok in Hrun as ([] & s12 & t12 & t12' & H12 & Hrun & ->).
  apply (run_copies_Ok h (fun file => join [join [__dirname; "template"]; file])
           (fun file => join [pacakgePath namespace; file])) in H12 as ->.
  apply run_bind_Ok in Hrun as (resolved & s13 & t13 & t13' & H13 & Hrun & ->).
  apply run_perform_Ok in H13 as ->.
  apply run_bind_Ok in Hrun as ([] & s14 & t14 & t14' & H14 & Hrun & ->).
  apply run_exec_Ok in H14 as ->. apply run_exec_Ok in Hrun as ->.
  destruct (moduleBaseName namespace) as [baseName|] eqn:Hbase; [|discriminate Hlow].
  simpl in Hlow. injection Hlow as <-.
  exists baseName, jp, ja, files, resolved.
  split; [reflexivity|]. split; [exact Hjp|]. split; [exact Hja|].
  unfold successful_generation, module_files. cbn [List.map concat app].
  reflexivity.
Qed.

Lemma written_writes pkg (files : list (string * contents)) :
  written (concat (List.map (write_trace pkg) files)) = omap (request_of pkg) files.
Proof.
  induction files as [|file files IH]; [reflexivity|].
  cbn [List.map concat]. rewrite written_app, IH.
  unfold write_trace, request_of.
  change (omap ?f (file :: files))
    with (match f file with Some x => x :: omap f files | None => omap f files end).
  cbv beta. by destruct (data_of file.2).
Qed.

Lemma written_copies (src dest : string -> string) (files : list string) :
  written (List.map (fun file => Obs (Copy (src file) (dest file)) (Ok tt)) files) = [].
Proof. induction files as [|file files IH]; [reflexivity | exact IH]. Qed.

(** X4. When the generation of a module returns, against any host, it has
    done exactly this and in this order: logged the package name; made the
    directory of and written each of the six files ([package.json],
    [.gitignore], [.npmignore], [lib/index.ts], [test/test.<name>.ts],
    [README.md]); listed the template directory and copied every entry
    listed into the module directory under the same name; resolved
    [lerna]; run its [bootstrap] and then its [build], both scoped to the
    package, both exiting with 0.  Nothing else; the base name was defined
    and all six files were asked to be written. *)
Theorem generation_that_returns :
  forall (S : Type) (h : handler sysE S) (s s' : S) version namespace u tr,
    run h (generate version namespace) s = (Ok u, s', tr) ->
    exists baseName javaPackage javaArtifactId files resolved,
      moduleBaseName namespace = Some baseName
      /\ Scaffolder.javaPackage (moduleFamily namespace) (toLocaleLowerCase baseName)
         = Ok javaPackage
      /\ Scaffolder.javaArtifactId (moduleFamily namespace) (toLocaleLowerCase baseName)
         = Ok javaArtifactId
      /\ tr = successful_generation __dirname version namespace javaPackage
                javaArtifactId (toLocaleLowerCase baseName) files resolved
      /\ written tr
         = omap (request_of (pacakgePath namespace))
             (module_files version namespace javaPackage javaArtifactId
                (toLocaleLowerCase baseName)).
Proof.
  intros S h s s' version namespace u tr Hrun.
  destruct (generate_returns S h s s' version namespace u tr Hrun)
    as (baseName & jp & ja & files & resolved & Hbase & Hjp & Hja & ->).
  exists baseName, jp, ja, files, resolved.
  split; [exact Hbase|]. split; [exact Hjp|]. split; [exact Hja|].
  split; [reflexivity|].
  unfold successful_generation.
  change (written (?o :: ?tr)) with (written ([o] ++ tr)).
  rewrite written_app, written_app, written_writes.
  match goal with
  | |- context [Obs (Readdir ?d) (Ok files) :: ?copies ++ ?rest] =>
      change (Obs (Readdir d) (Ok files) :: copies ++ rest)
        with ([Obs (Readdir d) (Ok files)] ++ copies ++ rest)
  end.
  rewrite !written_app.
  rewrite (written_copies (fun file => join [join [__dirname; "template"]; file])
             (fun file => join [pacakgePath namespace; file])).
  cbn [written omap list_omap written_by app]. by rewrite List.app_nil_r.
Qed.

Lemma run_ask_Ok {S A : Type} (h : handler sysE S) (e : sysE A) s a s' tr :
  run h (ask e) s = (Ok a, s', tr) -> tr = [Obs e a].
Proof.
  unfold ask. simpl. destruct (h _ e s) as [x s1]. by intros [= -> _ <-].
Qed.

Lemma iteration_that_returns {S : Type} (h : handler sysE S) s s' version namespace u tr :
  run h (iteration version namespace) s = (Ok u, s', tr) ->
  visited __dirname version namespace tr.
Proof.
  unfold Scaffolder.iteration. intros Hrun.
  apply run_bind_Ok in Hrun as (present & s1 & t1 & t2 & Hcheck & Hrun & ->).
  apply run_ask_Ok in Hcheck as ->. destruct present.
  - simpl in Hrun. injection Hrun as _ _ <-. by left.
  - right. apply generate_returns in Hrun
      as (baseName & jp & ja & files & resolved & Hbase & Hjp & Hja & ->).
    exists baseName, jp, ja, files, resolved. done.
Qed.

Lemma loop_that_returns {S : Type} (h : handler sysE S) version namespaces :
  forall s u s' tr,
    run h (for_of namespaces (iteration version)) s = (Ok u, s', tr) ->
    exists segments,
      tr = concat segments
      /\ Forall2 (visited __dirname version) namespaces segments.
Proof.
  induction namespaces as [|namespace rest IH]; intros s u s' tr Hrun.
  - simpl in Hrun. injection Hrun as _ _ <-. exists []. split; [done | constructor].
  - cbn [for_of] in Hrun.
    apply run_bind_Ok in Hrun as ([] & s1 & t1 & t2 & Hone & Hrest & ->).
    apply iteration_that_returns in Hone.
    apply IH in Hrest as (segments & -> & Hall).
    exists (t1 :: segments). split; [reflexivity | by constructor].
Qed.

(** X5. A run of the script that ends with status 0, against any host,
    has read the version, listed the namespaces and then, for every listed
    namespace in the order of the listing, either found its directory and
    done nothing more, or found it missing and done a whole generation
    (log, six files, template, bootstrap, build); it has printed no error
    and the root directory had the expected name. *)
Theorem run_that_ends_with_status_0 :
  forall (S : Type) (h : handler sysE S) (s s' : S) tr,
    run h script s = (0%Z, s', tr) ->
    basename root = "@aws-cdk"
    /\ exists version namespaces segments,
         tr = Obs RequirePackageVersion (Ok version)
                :: Obs Namespaces (Ok namespaces) :: concat segments
         /\ Forall2 (visited __dirname version) namespaces segments.
Proof.
  intros S h s s' tr Hrun. unfold Scaffolder.script in Hrun.
  rewrite run_seq in Hrun.
  destruct (run h main s) as [[[u|e] s1] tr1] eqn:Hmain; simpl in Hrun.
  - injection Hrun as _ <-. rewrite app_nil_r.
    unfold Scaffolder.main in Hmain. case_decide as Hname; [discriminate Hmain|].
    split; [by destruct (decide (basename root = "@aws-cdk"))|].
    apply run_bind_Ok in Hmain as (version & s2 & t1 & t2 & Hversion & Hmain & ->).
    apply run_perform_Ok in Hversion as ->.
    apply run_bind_Ok in Hmain as (namespaces & s3 & t3 & t4 & Hlist & Hmain & ->).
    apply run_perform_Ok in Hlist as ->.
    apply loop_that_returns in Hmain as (segments & -> & Hall).
    exists version, namespaces, segments. done.
  - destruct (h unit (ConsoleError e) s1) as [[] s2]. discriminate Hrun.
Qed.

(** ** The order of the checks *)

Lemma checked_generate {S : Type} (h : handler sysE S) s version namespace :
  omap checked (run h (generate version namespace) s).2 = [].
Proof.
  assert (Hnodes : every_node
            (fun X e _ => match e with PathExists _ => False | _ => True end)
            (generate version namespace)).
  { eapply every_node_weaken; [|apply rule_generate].
    intros X e k. destruct e; simpl; done. }
  pose proof (every_node_Forall h _ _ Hnodes s) as Hall.
  apply omap_none. eapply Forall_impl; [exact Hall|].
  intros [X e x]. by destruct e.
Qed.

Lemma checked_iteration {S : Type} (h : handler sysE S) s version namespace :
  omap checked (run h (iteration version namespace) s).2 = [pacakgePath namespace].
Proof.
  unfold Scaffolder.iteration. cbn [bind seq ask run].
  destruct (h _ (PathExists _) s) as [[|] s1]; simpl; [reflexivity|].
  pose proof (checked_generate h s1 version namespace) as Hnone.
  destruct (run h (generate version namespace) s1) as [[r s2] tr].
  cbn [snd] in *.
  change (Obs (PathExists (pacakgePath namespace)) false :: tr)
    with ([Obs (PathExists (pacakgePath namespace)) false] ++ tr).
  by rewrite omap_app, Hnone.
Qed.

(** X3. In any run of the loop over the namespaces, against any host, the
    directories asked about are those of the namespaces in the order of
    the list, one question each, up to the namespace at which the loop
    stops; when the loop returns, every namespace has been asked about. *)
Theorem namespaces_are_checked_in_order :
  forall (S : Type) (h : handler sysE S) version namespaces (s : S),
    let '(r, _, tr) := run h (for_of namespaces (iteration version)) s in
    omap checked tr `prefix_of` List.map pacakgePath namespaces
    /\ (forall u, r = Ok u -> omap checked tr = List.map pacakgePath namespaces).
Proof.
  intros S h version namespaces.
  induction namespaces as [|namespace rest IH]; intros s.
  - simpl. split; [reflexivity | done].
  - rewrite run_for_of.
    pose proof (checked_iteration h s version namespace) as Hone.
    destruct (run h (iteration version namespace) s) as [[[u|e] s1] tr1];
      simpl in Hone.
    + specialize (IH s1).
      destruct (run h (for_of rest (iteration version)) s1) as [[r s2] tr2].
      destruct IH as [Hprefix Hall]. rewrite omap_app, Hone. simpl. split.
      * by apply prefix_cons.
      * intros u' Hr. by rewrite (Hall u' Hr).
    + rewrite Hone. simpl. split; [apply prefix_cons, prefix_nil | done].
Qed.

(** ** No child before the scaffold is complete *)

Lemma split_after_quiet (l1 l2 pre post : list (obs sysE)) o :
  Forall (fun x => is_spawn x = false) l1 ->
  is_spawn o = true ->
  l1 ++ l2 = pre ++ o :: post ->
  exists pre', pre = l1 ++ pre' /\ l2 = pre' ++ o :: post.
Proof.
  revert pre. induction l1 as [|a l1 IH]; intros pre Hquiet Ho Heq.
  - exists pre. done.
  - apply Forall_cons in Hquiet as [Ha Hquiet].
    destruct pre as [|b pre]; simpl in Heq.
    + injection Heq as -> _. congruence.
    + injection Heq as <- Heq.
      destruct (IH pre Hquiet Ho Heq) as (pre' & -> & ->). by exists pre'.
Qed.

Lemma plain_no_spawn {S A : Type} (h : handler sysE S) (m : prog sysE (result A)) s :
  every_node plain m -> Forall (fun x => is_spawn x = false) (run h m s).2.
Proof.
  intros Hm.
  assert (Hnodes : every_node
            (fun X e _ => match e with Spawn _ => False | _ => True end) m).
  { eapply every_node_weaken; [|exact Hm].
    intros X e k. destruct e; simpl; try done.
    intros Hk. exact (Hk (ChildExit (Some 0%Z))). }
  eapply Forall_impl; [exact (every_node_Forall h _ m Hnodes s)|].
  intros [X e x]. by destruct e.
Qed.

(** A child seen in a run lies behind every plain step before it, and
    those steps returned. *)
Lemma run_bind_reach {S A B : Type} (h : handler sysE S) (m : prog sysE (result A))
    (f : A -> prog sysE (result B)) s r s' pre o post :
  every_node plain m ->
  run h (bind m f) s = (r, s', pre ++ o :: post) ->
  is_spawn o = true ->
  exists a s1 tr1 pre',
    run h m s = (Ok a, s1, tr1) /\ pre = tr1 ++ pre'
    /\ run h (f a) s1 = (r, s', pre' ++ o :: post).
Proof.
  intros Hm Hrun Ho. rewrite run_bind in Hrun.
  pose proof (plain_no_spawn h m s Hm) as Hquiet.
  destruct (run h m s) as [[[a|e] s1] tr1]; simpl in Hquiet.
  - destruct (run h (f a) s1) as [[r2 s2] tr2] eqn:Hf.
    injection Hrun as -> -> Htr.
    destruct (split_after_quiet _ _ _ _ _ Hquiet Ho Htr) as (pre' & -> & ->).
    exists a, s1, tr1, pre'. done.
  - injection Hrun as _ _ ->.
    apply Forall_app in Hquiet as [_ Hquiet].
    apply Forall_cons in Hquiet as [Hno _]. congruence.
Qed.

(** X6. In any run of the generation of a module, against any host, a
    child is started only behind a complete scaffold: before the first
    child come the log line, the six files made and written, the listing
    of the template directory, the copy of every entry listed and the
    resolution of [lerna], all of them successful and nothing else; and
    the only other child is the build, right behind a bootstrap that
    exited with 0. *)
Theorem no_child_before_the_scaffold_is_complete :
  forall (S : Type) (h : handler sysE S) (s s' : S) version namespace r pre o post,
    run h (generate version namespace) s = (r, s', pre ++ o :: post) ->
    is_spawn o = true ->
    exists baseName javaPackage javaArtifactId files resolved,
      moduleBaseName namespace = Some baseName
      /\ Scaffolder.javaPackage (moduleFamily namespace) (toLocaleLowerCase baseName)
         = Ok javaPackage
      /\ Scaffolder.javaArtifactId (moduleFamily namespace) (toLocaleLowerCase baseName)
         = Ok javaArtifactId
      /\ let before :=
           scaffolding __dirname version namespace javaPackage javaArtifactId
             (toLocaleLowerCase baseName) files resolved in
         pre = before
         \/ pre = before
                    ++ [Obs (Spawn (bootstrap_command namespace resolved))
                          (ChildExit (Some 0%Z))].
Proof.
  intros S h s s' version namespace r pre o post Hrun Ho.
  unfold Scaffolder.generate in Hrun. cbv zeta in Hrun.
  apply run_bind_reach in Hrun
    as (low & s1 & t1 & p1 & H1 & -> & Hrun); [|apply plain_lift | exact Ho].
  apply run_lift_Ok in H1 as [Hlow ->].
  apply run_bind_reach in Hrun
    as (jp & s2 & t2 & p2 & H2 & -> & Hrun); [|apply plain_lift | exact Ho].
  apply run_lift_Ok in H2 as [Hjp ->].
  apply run_bind_reach in Hrun
    as (ja & s3 & t3 & p3 & H3 & -> & Hrun); [|apply plain_lift | exact Ho].
  apply run_lift_Ok in H3 as [Hja ->].
  apply run_bind_reach in Hrun
    as ([] & s4 & t4 & p4 & H4 & -> & Hrun); [|simpl; done | exact Ho].
  apply run_log in H4 as ->.
  apply run_bind_reach in Hrun as ([] & s5 & t5 & p5 & H5 & -> & Hrun);
    [|apply plain_write, package_json_ends_a_line | exact Ho].
  apply (run_write_Ok h _ ("package.json", _)) in H5 as ->.
  apply run_bind_reach in Hrun as ([] & s6 & t6 & p6 & H6 & -> & Hrun);
    [|apply plain_write, gitignore_ends_a_line | exact Ho].
  apply (run_write_Ok h _ (".gitignore", _)) in H6 as ->.
  apply run_bind_reach in Hrun as ([] & s7 & t7 & p7 & H7 & -> & Hrun);
    [|apply plain_write, npmignore_ends_a_line | exact Ho].
  apply (run_write_Ok h _ (".npmignore", _)) in H7 as ->.
  apply run_bind_reach in Hrun as ([] & s8 & t8 & p8 & H8 & -> & Hrun);
    [|apply plain_write, index_ts_ends_a_line | exact Ho].
  apply (run_write_Ok h _ ("lib/index.ts", _)) in H8 as ->.
  apply run_bind_reach in Hrun as ([] & s9 & t9 & p9 & H9 & -> & Hrun);
    [|apply plain_write, test_ts_ends_a_line | exact Ho].
  apply (run_write_Ok h _ ("test/test." +:+ low +:+ ".ts", _)) in H9 as ->.
  apply run_bind_reach in Hrun as ([] & s10 & t10 & p10 & H10 & -> & Hrun);
    [|apply plain_write, readme_ends_a_line | exact Ho].
  apply (run_write_Ok h _ ("README.md", _)) in H10 as ->.
  apply run_bind_reach in Hrun as (files & s11 & t11 & p11 & H11 & -> & Hrun);
    [|simpl; done | exact Ho].
  apply run_perform_Ok in H11 as ->.
  apply run_bind_reach in Hrun as ([] & s12 & t12 & p12 & H12 & -> & Hrun);
    [|apply plain_for_of; intros file; simpl; done | exact Ho].
  apply (run_copies_Ok h (fun file => join [join [__dirname; "template"]; file])
           (fun file => join [pacakgePath namespace; file])) in H12 as ->.
  apply run_bind_reach in Hrun as (resolved & s13 & t13 & p13 & H13 & -> & Hrun);
    [|simpl; done | exact Ho].
  apply run_perform_Ok in H13 as ->.
  destruct (moduleBaseName namespace) as [baseName|] eqn:Hbase; [|discriminate Hlow].
  simpl in Hlow. injection Hlow as <-.
  exists baseName, jp, ja, files, resolved.
  split; [reflexivity|]. split; [exact Hjp|]. split; [exact Hja|].
  assert (Hshape :
    p13 = [] \/ p13 = [Obs (Spawn (bootstrap_command namespace resolved))
                         (ChildExit (Some 0%Z))]).
  { unfold exec in Hrun. cbn [bind seq run] in Hrun. unfold bootstrap_command.
    destruct (h _ (Spawn _) s13) as [[e|code] s14]; cbn [seq run throw] in Hrun.
    - injection Hrun as _ _ Htr.
      destruct p13 as [|a [|b p]]; [by left | |]; discriminate Htr.
    - case_decide as Hcode; cbn [seq run throw ret] in Hrun.
      + subst code. destruct (h _ (Spawn _) s14) as [out s15].
        assert (Htr : exists x, [Obs (Spawn (join [dirname resolved; "cli.js"]
                                   +:+ " bootstrap --scope " +:+ packageName namespace))
                                   (ChildExit (Some 0%Z)); x]
                                = p13 ++ o :: post).
        { destruct out as [e|code]; cbn [seq run throw] in Hrun;
            [|case_decide; cbn [seq run throw ret] in Hrun];
            injection Hrun as _ _ Htr; eauto. }
        destruct Htr as [x Htr].
        destruct p13 as [|a [|b p]]; [by left | |].
        * injection Htr as <- _. by right.
        * injection Htr as _ _ Htr. by destruct p.
      + injection Hrun as _ _ Htr.
        destruct p13 as [|a [|b p]]; [by left | |]; discriminate Htr. }
  unfold scaffolding, module_files. cbn [List.map concat app].
  destruct Hshape as [-> | ->]; [left; reflexivity | right].
  cbn [write_trace data_of fst snd app]. rewrite <- ?List.app_assoc. reflexivity.
Qed.

(** ** The files of every module *)

(** The array that [split] returns is never empty: the family is always
    defined, and so is it when the base name is. *)
Lemma family_defined namespace : exists family, moduleFamily namespace = Some family.
Proof.
  unfold moduleFamily. rewrite split_sep.
  pose proof (split_scan_nonempty "::" namespace 0 EmptyString) as Hne.
  destruct (split_scan "::" 0 EmptyString namespace) as [|family rest]; [done|].
  by exists family.
Qed.

(** X7. For every namespace (read as a family and a base name) and every
    version, against any host, the manifest that is written first has the
    name [@aws-cdk/<module name>], the version read from [package.json],
    the namespace as its [cdk-build] source, the .NET namespace and package
    [Amazon.CDK.<family>.<base name>] with their letter case kept, the same
    single entry in [dependencies] and [peerDependencies], and every pin in
    the three dependency maps equal to [^<version>]. *)
Theorem manifest_of_every_module :
  forall (S : Type) (h : handler sysE S) (s : S) version namespace family baseName
      file data,
    moduleFamily namespace = Some family ->
    moduleBaseName namespace = Some baseName ->
    written (run h (generate version namespace) s).2 !! 0%nat = Some (file, data) ->
    exists manifest dependencies devDependencies,
      file = join [pacakgePath namespace; "package.json"]
      /\ data = stringify (JObj manifest) +:+ LF
      /\ field "name" manifest = Some (JStr ("@aws-cdk/" +:+ moduleName namespace))
      /\ field "version" manifest = Some (JStr version)
      /\ (field "cdk-build" manifest ≫= get "cloudformation") = Some (JStr namespace)
      /\ ((field "jsii" manifest ≫= get "targets") ≫= get "dotnet")
         = Some (JObj
             [ ("namespace", JStr ("Amazon.CDK." +:+ family +:+ "." +:+ baseName));
               ("packageId", JStr ("Amazon.CDK." +:+ family +:+ "." +:+ baseName));
               ("signAssembly", JBool true);
               ("assemblyOriginatorKeyFile", JStr "../../key.snk") ])
      /\ field "dependencies" manifest = Some (JObj dependencies)
      /\ field "peerDependencies" manifest = Some (JObj dependencies)
      /\ field "devDependencies" manifest = Some (JObj devDependencies)
      /\ List.map fst dependencies = ["@aws-cdk/cdk"]
      /\ List.map fst devDependencies
         = ["@aws-cdk/assert"; "cdk-build-tools"; "cfn2ts"; "pkglint"]
      /\ Forall (fun pin => pin.2 = JStr ("^" +:+ version))
           (dependencies ++ devDependencies).
Proof.
  intros S h s version namespace family baseName file data Hfamily Hbase Hfirst.
  apply (ScaffolderSpec.written_generate_lookup __dirname h s version namespace
           family baseName) in Hfirst; [|exact Hfamily | exact Hbase].
  injection Hfirst as <- <-. eexists _, _, _.
  split; [reflexivity|]. split; [reflexivity|]. split; [reflexivity|].
  split; [reflexivity|]. split; [reflexivity|].
  split; [cbn; unfold dotnetPackage; by rewrite Hfamily, Hbase|].
  split; [reflexivity|]. split; [reflexivity|]. split; [reflexivity|].
  split; [reflexivity|]. split; [reflexivity|].
  repeat constructor.
Qed.

(** X8. In any run of the generation of a module, against any host, at
    most six files are asked to be written; the second and the third are
    [.gitignore] and [.npmignore] and the fifth is the test stub
    [test/test.<lowered base name>.ts], each with the same bytes for every
    namespace and version; the sixth is [README.md], whose bytes depend on
    the namespace alone. *)
Theorem boilerplate_files_are_fixed :
  forall (S : Type) (h : handler sysE S) (s : S) version namespace i file data,
    written (run h (generate version namespace) s).2 !! i = Some (file, data) ->
    exists baseName,
      moduleBaseName namespace = Some baseName
      /\ (i < 6)%nat
      /\ (i = 1%nat ->
            file = join [pacakgePath namespace; ".gitignore"]
            /\ data = Js.join LF gitignore +:+ LF)
      /\ (i = 2%nat ->
            file = join [pacakgePath namespace; ".npmignore"]
            /\ data = Js.join LF npmignore +:+ LF)
      /\ (i = 4%nat ->
            file = join [pacakgePath namespace;
                         "test/test." +:+ toLocaleLowerCase baseName +:+ ".ts"]
            /\ data = Js.join LF test_ts +:+ LF)
      /\ (i = 5%nat ->
            file = join [pacakgePath namespace; "README.md"]
            /\ data = Js.join LF
                        (readme namespace (toLocaleLowerCase baseName)
                           ("@aws-cdk/" +:+ moduleName namespace)) +:+ LF).
Proof.
  intros S h s version namespace i file data Hfile.
  destruct (moduleBaseName namespace) as [baseName|] eqn:Hbase.
  - exists baseName. split; [reflexivity|].
    destruct (family_defined namespace) as [family Hfamily].
    apply (ScaffolderSpec.written_generate_lookup __dirname h s version namespace
             family baseName) in Hfile; [|exact Hfamily | exact Hbase].
    split; [by apply lookup_lt_Some in Hfile|].
    split; [intros ->; by injection Hfile as <- <-|].
    split; [intros ->; by injection Hfile as <- <-|].
    split; [intros ->; by injection Hfile as <- <-|].
    intros ->. by injection Hfile as <- <-.
  - rewrite (ScaffolderSpec.generate_undefined __dirname) in Hfile by exact Hbase.
    discriminate Hfile.
Qed.

(** X9. Computing the Java names never throws: the family is defined for
    every namespace, so neither [javaPackage] nor [javaArtifactId] ever
    calls a method on [undefined]; the only [TypeError] of the loop body
    is the one for a missing base name. *)
Theorem java_names_never_throw :
  forall namespace lowcaseModuleName : string,
    exists family package artifact,
      moduleFamily namespace = Some family
      /\ javaPackage (moduleFamily namespace) lowcaseModuleName = Ok package
      /\ javaArtifactId (moduleFamily namespace) lowcaseModuleName = Ok artifact.
Proof.
  intros namespace low. destruct (family_defined namespace) as [family Hfamily].
  exists family. rewrite Hfamily. eexists _, _. split; [reflexivity|].
  split; [apply ScaffolderSpec.javaPackage_defined
         | apply ScaffolderSpec.javaArtifactId_defined].
Qed.

(** X10. For a namespace read as a family and a base name, the Maven
    artifact is the module name itself, and the Java package is the module
    name with a dot for the hyphen, unless the family is [AWS]: then the
    module name is [aws-] and the artifact, and the Java package is
    [services.] and the artifact. *)
Theorem artifact_and_module_name :
  forall namespace family baseName package artifact : string,
    moduleFamily namespace = Some family ->
    moduleBaseName namespace = Some baseName ->
    javaPackage (moduleFamily namespace) (toLocaleLowerCase baseName) = Ok package ->
    javaArtifactId (moduleFamily namespace) (toLocaleLowerCase baseName) = Ok artifact ->
    (family = "AWS" ->
       moduleName namespace = "aws-" +:+ artifact
       /\ package = "services." +:+ artifact)
    /\ (family <> "AWS" ->
          moduleName namespace = artifact
          /\ package = toLocaleLowerCase family +:+ "." +:+ toLocaleLowerCase baseName
          /\ artifact = toLocaleLowerCase family +:+ "-" +:+ toLocaleLowerCase baseName).
Proof.
  intros namespace family baseName package artifact Hfamily Hbase Hpackage Hartifact.
  assert (Hname : moduleName namespace
                  = toLocaleLowerCase family +:+ "-" +:+ toLocaleLowerCase baseName).
  { unfold moduleName. rewrite Hfamily, Hbase. simpl string_of_undefinable.
    by rewrite !lower_app. }
  rewrite Hfamily in Hpackage, Hartifact.
  rewrite ScaffolderSpec.javaPackage_defined in Hpackage.
  rewrite ScaffolderSpec.javaArtifactId_defined in Hartifact.
  split.
  - intros ->. rewrite decide_True in Hpackage, Hartifact by done.
    injection Hpackage as <-. injection Hartifact as <-. by rewrite Hname.
  - intros Hother. rewrite decide_False in Hpackage, Hartifact by done.
    injection Hpackage as <-. injection Hartifact as <-. by rewrite Hname.
Qed.

(** ** Letter case *)







(** ** Every failure has a cause *)

Lemma run_bind_Throw {S A B : Type} (h : handler sysE S) (m : prog sysE (result A))
    (f : A -> prog sysE (result B)) s e s' tr :
  run h (bind m f) s = (Throw e, s', tr) ->
  run h m s = (Throw e, s', tr)
  \/ exists a s1 tr1 tr2,
       run h m s = (Ok a, s1, tr1) /\ run h (f a) s1 = (Throw e, s', tr2)
       /\ tr = tr1 ++ tr2.
Proof.
  rewrite run_bind. destruct (run h m s) as [[[a|e0] s1] tr1].
  - destruct (run h (f a) s1) as [[b s2] tr2] eqn:Hf.
    intros [= -> -> <-]. right. eauto 10.
  - intros [= -> -> ->]. by left.
Qed.

Lemma blamed_later e tr1 tr2 : blamed e tr2 -> blamed e (tr1 ++ tr2).
Proof.
  intros (pre & o & -> & Hcause). exists (tr1 ++ pre), o.
  split; [by rewrite <- List.app_assoc | exact Hcause].
Qed.

Lemma blames_bind {S A B : Type} (h : handler sysE S) (m : prog sysE (result A))
    (f : A -> prog sysE (result B)) :
  blames h m -> (forall a, blames h (f a)) -> blames h (bind m f).
Proof.
  intros Hm Hf s e s' tr Hrun.
  apply run_bind_Throw in Hrun as [Hrun | (a & s1 & tr1 & tr2 & _ & Hrun & ->)].
  - by eapply Hm.
  - apply blamed_later. by eapply Hf.
Qed.

Lemma blames_for_of {S A : Type} (h : handler sysE S) (xs : list A)
    (body : A -> prog sysE (result unit)) :
  (forall x, blames h (body x)) -> blames h (for_of xs body).
Proof.
  intros Hbody. induction xs as [|x xs IH].
  - intros s e s' tr Hrun. discriminate Hrun.
  - cbn [for_of]. apply blames_bind; [apply Hbody | intros _; exact IH].
Qed.

(** A host call that rejects is its own cause. *)
Lemma blames_perform {S A : Type} (h : handler sysE S) (e : sysE (result A)) :
  (forall err, rejection (Obs e (Throw err)) = Some err) -> blames h (perform e).
Proof.
  intros Hrej s err s' tr Hrun. rewrite run_perform in Hrun.
  injection Hrun as Hanswer _ <-. rewrite Hanswer.
  exists [], (Obs e (Throw err)). split; [reflexivity|]. left. apply Hrej.
Qed.

Lemma blames_never {S A : Type} (h : handler sysE S) (p : prog sysE (result A)) :
  (forall s, exists a s' tr, run h p s = (Ok a, s', tr)) -> blames h p.
Proof.
  intros Hok s e s' tr Hrun. destruct (Hok s) as (a & s1 & tr1 & Hrun').
  rewrite Hrun' in Hrun. discriminate Hrun.
Qed.

Lemma blames_exec {S : Type} (h : handler sysE S) command : blames h (exec command).
Proof.
  intros s e s' tr Hrun. unfold exec in Hrun. simpl in Hrun.
  destruct (h _ (Spawn command) s) as [outcome s1] eqn:Hh.
  exists [], (Obs (Spawn command) outcome).
  destruct outcome as [e0|code]; simpl in Hrun.
  - injection Hrun as -> _ <-. split; [reflexivity|]. right; left. reflexivity.
  - case_decide as Hcode; simpl in Hrun; [discriminate Hrun|].
    injection Hrun as <- _ <-. split; [reflexivity|]. right; left.
    simpl. by rewrite decide_False.
Qed.

Lemma blames_write {S : Type} (h : handler sysE S) pkg relativePath c data :
  data_of c = Ok data -> blames h (write pkg relativePath c).
Proof.
  intros Hdata. unfold write. rewrite Hdata.
  apply blames_bind; [by apply blames_perform | intros _].
  apply blames_bind; [|intros data'; by apply blames_perform].
  intros s e s' tr Hrun. discriminate Hrun.
Qed.

(** The generation throws for want of a base name before doing anything,
    or with the cause as its last observation. *)
Lemma generate_throws {S : Type} (h : handler sysE S) s version namespace e s' tr :
  run h (generate version namespace) s = (Throw e, s', tr) ->
  (tr = [] /\ e = TypeErrorOnUndefined "toLocaleLowerCase") \/ blamed e tr.
Proof.
  unfold Scaffolder.generate. cbv zeta. intros Hrun.
  destruct (moduleBaseName namespace) as [baseName|] eqn:Hbase.
  2:{ left. simpl in Hrun. by injection Hrun as <- _ <-. }
  right. cbn [call_on] in Hrun. rewrite bind_lift_ok in Hrun. cbv beta in Hrun.
  destruct (family_defined namespace) as [family Hfamily]. rewrite Hfamily in Hrun.
  rewrite ScaffolderSpec.javaPackage_defined, bind_lift_ok in Hrun. cbv beta in Hrun.
  rewrite ScaffolderSpec.javaArtifactId_defined, bind_lift_ok in Hrun. cbv beta in Hrun.
  revert s e s' tr Hrun.
  apply blames_bind.
  { apply blames_never. intros s. unfold ask. simpl.
    destruct (h _ (ConsoleLog _) s) as [x s1]. eauto. }
  intros _.
  do 6 (eapply blames_bind; [by eapply blames_write | intros _]).
  apply blames_bind; [by apply blames_perform | intros files].
  apply blames_bind; [apply blames_for_of; intros file; by apply blames_perform
                     | intros _].
  apply blames_bind; [by apply blames_perform | intros resolved].
  apply blames_bind; [apply blames_exec | intros _; apply blames_exec].
Qed.

Lemma blames_iteration {S : Type} (h : handler sysE S) version namespace :
  blames h (iteration version namespace).
Proof.
  intros s e s' tr Hrun. unfold Scaffolder.iteration in Hrun.
  cbn [bind seq ask run] in Hrun.
  destruct (h _ (PathExists _) s) as [[|] s1]; [discriminate Hrun|].
  cbn [seq] in Hrun.
  destruct (run h (generate version namespace) s1) as [[r s2] tr2] eqn:Hgen.
  injection Hrun as -> -> <-.
  apply generate_throws in Hgen as [[-> ->] | Hblamed].
  - exists [], (Obs (PathExists (pacakgePath namespace)) false).
    split; [reflexivity|]. right; right. done.
  - apply (blamed_later e [Obs (PathExists (pacakgePath namespace)) false]).
    exact Hblamed.
Qed.

(** X12. When a run of the script ends with status 1, against any host,
    what it printed last is one of four things and nothing else: the
    wrong-root error, with nothing done before it; what the host function
    called just before rejected with; the failure of the child that ended
    just before; or the [TypeError] for a missing base name, right behind
    an existence check that found nothing.  No other error, in particular
    not the one of [write] about the type of its contents, arises from the
    script itself. *)
Theorem every_failure_has_a_cause :
  forall (S : Type) (h : handler sysE S) (s s' : S) tr,
    run h script s = (1%Z, s', tr) ->
    exists e,
      (tr = [Obs (ConsoleError e) tt] /\ e = wrong_root __dirname
       /\ basename root <> "@aws-cdk")
      \/ exists pre o, tr = pre ++ [o; Obs (ConsoleError e) tt] /\ cause e o.
Proof.
  intros S h s s' tr Hrun. unfold Scaffolder.script in Hrun.
  rewrite run_seq in Hrun.
  destruct (run h main s) as [[[u|e] s1] tr1] eqn:Hmain; simpl in Hrun;
    [discriminate Hrun|].
  destruct (h unit (ConsoleError e) s1) as [[] s2]. injection Hrun as _ <-.
  exists e. unfold Scaffolder.main in Hmain. case_decide as Hname.
  - left. simpl in Hmain. by injection Hmain as <- _ <-.
  - right.
    assert (Hblames : blames h
              (let* version := perform RequirePackageVersion in
               let* namespaces := perform Namespaces in
               for_of namespaces (iteration version))).
    { apply blames_bind; [by apply blames_perform | intros version].
      apply blames_bind; [by apply blames_perform | intros namespaces].
      apply blames_for_of. intros namespace. apply blames_iteration. }
    destruct (Hblames _ _ _ _ Hmain) as (pre & o & -> & Hcause).
    exists pre, o. split; [by rewrite <- List.app_assoc | exact Hcause].
Qed.
End Run.

(** ** The properties at work in the repository of [Fixture] *)

Import Fixture Mishaps.

Lemma every_failure_has_a_cause_witness :
  let r := run world (script (path := Posix.path) build_tools)
             (repo ["Family"] (exits_with 0)) in
  r.1.1 = 1%Z
  /\ exists e,
       (r.2 = [Obs (ConsoleError e) tt]
        /\ e = wrong_root (path := Posix.path) build_tools
        /\ basename (Path := Posix.path) (root (path := Posix.path) build_tools)
           <> "@aws-cdk")
       \/ exists pre o, r.2 = pre ++ [o; Obs (ConsoleError e) tt] /\ cause e o.
Proof.
  intros r.
  assert (Hrun : run world (script (path := Posix.path) build_tools)
                   (repo ["Family"] (exits_with 0)) = (1%Z, r.1.2, r.2)).
  { vm_compute. reflexivity. }
  split; [vm_compute; reflexivity|].
  exact (every_failure_has_a_cause (path := Posix.path) build_tools
           World world _ _ _ Hrun).
Defined.

Lemma child_error_ends_the_process_witness :
  let r := run world (script (path := Posix.path) build_tools)
             (repo ["A::B"] cannot_spawn) in
  drop 20 r.2 = [Obs (ConsoleError (HostError "ENOENT")) tt] /\ r.1.1 = 1%Z.
Proof.
  intros r.
  destruct (child_error_ends_the_process (path := Posix.path) build_tools
              World world (repo ["A::B"] cannot_spawn) r.1.2 r.1.1 (take 19 r.2)
              (Obs (Spawn "/repo/node_modules/lerna/cli.js bootstrap --scope @aws-cdk/a-b")
                 (ChildError (HostError "ENOENT")))
              (drop 20 r.2) (HostError "ENOENT"))
    as (Hpost & Hstatus & _).
  { vm_compute. reflexivity. }
  { reflexivity. }
  split; assumption.
Defined.

Lemma host_failure_ends_the_process_witness :
  let r := run world (script (path := Posix.path) build_tools)
             (repo_without_lerna ["A::B"]) in
  drop 19 r.2 = [Obs (ConsoleError (HostError "MODULE_NOT_FOUND")) tt]
  /\ r.1.1 = 1%Z.
Proof.
  intros r.
  destruct (host_failure_ends_the_process (path := Posix.path) build_tools
              World world (repo_without_lerna ["A::B"]) r.1.2 r.1.1 (take 18 r.2)
              (Obs ResolveLerna (Throw (HostError "MODULE_NOT_FOUND")))
              (drop 19 r.2) (HostError "MODULE_NOT_FOUND"))
    as (Hpost & Hstatus & _).
  { vm_compute. reflexivity. }
  { reflexivity. }
  split; assumption.
Defined.

Lemma namespaces_are_checked_in_order_witness :
  let r := run world
             (for_of ["AWS::EC2"; "A::B"; "C::D"]
                (iteration (path := Posix.path) build_tools "1.2.3"))
             (repo [] (exits_with 0)) in
  r.1.1 = Ok tt
  /\ omap checked r.2
     = List.map (pacakgePath (path := Posix.path) build_tools)
         ["AWS::EC2"; "A::B"; "C::D"].
Proof.
  intros r.
  assert (Hok : r.1.1 = Ok tt) by (vm_compute; reflexivity).
  split; [exact Hok|].
  pose proof (namespaces_are_checked_in_order (path := Posix.path) build_tools
                World world "1.2.3" ["AWS::EC2"; "A::B"; "C::D"]
                (repo [] (exits_with 0))) as Hchecks.
  fold r in Hchecks. destruct r as [[res w] tr]. simpl in Hok.
  exact (proj2 Hchecks tt Hok).
Defined.

Lemma generation_that_returns_witness :
  let r := run world (generate (path := Posix.path) build_tools "1.2.3" "A::B")
             (repo [] (exits_with 0)) in
  r.1.1 = Ok tt
  /\ exists baseName javaPackage javaArtifactId files resolved,
       moduleBaseName "A::B" = Some baseName
       /\ r.2 = successful_generation (path := Posix.path) build_tools "1.2.3" "A::B"
                  javaPackage javaArtifactId (toLocaleLowerCase baseName)
                  files resolved.
Proof.
  intros r.
  assert (Hrun : run world (generate (path := Posix.path) build_tools "1.2.3" "A::B")
                   (repo [] (exits_with 0)) = (Ok tt, r.1.2, r.2)).
  { vm_compute. reflexivity. }
  split; [vm_compute; reflexivity|].
  destruct (generation_that_returns (path := Posix.path) build_tools
              World world _ _ _ _ _ _ Hrun)
    as (baseName & jp & ja & files & resolved & Hbase & _ & _ & Htr & _).
  exists baseName, jp, ja, files, resolved. split; assumption.
Defined.

Lemma run_that_ends_with_status_0_witness :
  let r := run world (script (path := Posix.path) build_tools)
             (repo ["AWS::EC2"; "A::B"] (exits_with 0)) in
  r.1.1 = 0%Z
  /\ exists version namespaces segments,
       r.2 = Obs RequirePackageVersion (Ok version)
               :: Obs Namespaces (Ok namespaces) :: concat segments
       /\ Forall2 (visited (path := Posix.path) build_tools version) namespaces segments.
Proof.
  intros r.
  assert (Hrun : run world (script (path := Posix.path) build_tools)
                   (repo ["AWS::EC2"; "A::B"] (exits_with 0)) = (0%Z, r.1.2, r.2)).
  { vm_compute. reflexivity. }
  split; [vm_compute; reflexivity|].
  exact (proj2 (run_that_ends_with_status_0 (path := Posix.path) build_tools
                  World world _ _ _ Hrun)).
Defined.

Lemma no_child_before_the_scaffold_is_complete_witness :
  let r := run world (generate (path := Posix.path) build_tools "1.2.3" "A::B")
             (repo [] (exits_with 3)) in
  is_spawn (default (Obs (ConsoleLog EmptyString) tt) (r.2 !! 16%nat)) = true
  /\ exists baseName javaPackage javaArtifactId files resolved,
       moduleBaseName "A::B" = Some baseName
       /\ let before :=
            scaffolding (path := Posix.path) build_tools "1.2.3" "A::B"
              javaPackage javaArtifactId (toLocaleLowerCase baseName) files resolved in
          take 16 r.2 = before
          \/ take 16 r.2
             = before ++ [Obs (Spawn (bootstrap_command (path := Posix.path)
                                        "A::B" resolved))
                            (ChildExit (Some 0%Z))].
Proof.
  intros r. split; [vm_compute; reflexivity|].
  destruct (no_child_before_the_scaffold_is_complete (path := Posix.path) build_tools
              World world (repo [] (exits_with 3)) r.1.2 "1.2.3" "A::B" r.1.1
              (take 16 r.2)
              (Obs (Spawn "/repo/node_modules/lerna/cli.js bootstrap --scope @aws-cdk/a-b")
                 (ChildExit (Some 3%Z)))
              (drop 17 r.2))
    as (baseName & jp & ja & files & resolved & Hbase & _ & _ & Hpre).
  { vm_compute. reflexivity. }
  { reflexivity. }
  exists baseName, jp, ja, files, resolved. split; [exact Hbase | exact Hpre].
Defined.

Lemma manifest_of_every_module_witness :
  let tr := (run world (generate (path := Posix.path) build_tools "0.9.0" "Alexa::ASK")
               (repo [] (exits_with 0))).2 in
  let first := default (EmptyString, EmptyString) (written tr !! 0%nat) in
  written tr !! 0%nat = Some first
  /\ exists manifest,
       first.2 = stringify (JObj manifest) +:+ LF
       /\ field "name" manifest = Some (JStr ("@aws-cdk/" +:+ moduleName "Alexa::ASK"))
       /\ field "version" manifest = Some (JStr "0.9.0").
Proof.
  intros tr first.
  assert (Hfirst : written tr !! 0%nat = Some (first.1, first.2)).
  { vm_compute. reflexivity. }
  split; [by destruct first|].
  destruct (manifest_of_every_module (path := Posix.path) build_tools
              World world (repo [] (exits_with 0)) "0.9.0" "Alexa::ASK"
              "Alexa" "ASK" first.1 first.2 eq_refl eq_refl Hfirst)
    as (manifest & _ & _ & _ & Hdata & Hname & Hversion & _).
  exists manifest. repeat split; assumption.
Defined.

Lemma boilerplate_files_are_fixed_witness :
  let tr := (run world (generate (path := Posix.path) build_tools "0.9.0" "Alexa::ASK")
               (repo [] (exits_with 0))).2 in
  let second := default (EmptyString, EmptyString) (written tr !! 1%nat) in
  written tr !! 1%nat = Some second
  /\ second.2 = Js.join LF gitignore +:+ LF.
Proof.
  intros tr second.
  assert (Hsecond : written tr !! 1%nat = Some (second.1, second.2)).
  { vm_compute. reflexivity. }
  split; [by destruct second|].
  destruct (boilerplate_files_are_fixed (path := Posix.path) build_tools
              World world (repo [] (exits_with 0)) "0.9.0" "Alexa::ASK"
              1%nat second.1 second.2 Hsecond)
    as (baseName & _ & _ & Hgitignore & _).
  exact (proj2 (Hgitignore eq_refl)).
Defined.

Lemma artifact_and_module_name_witness :
  moduleFamily "AWS::EC2" = Some "AWS"
  /\ moduleBaseName "AWS::EC2" = Some "EC2"
  /\ javaArtifactId (moduleFamily "AWS::EC2") (toLocaleLowerCase "EC2") = Ok "ec2"
  /\ moduleName "AWS::EC2" = "aws-" +:+ "ec2".
Proof.
  split; [reflexivity|]. split; [reflexivity|]. split; [reflexivity|].
  exact (proj1 (proj1 (artifact_and_module_name "AWS::EC2" "AWS" "EC2"
                         "services.ec2" "ec2" eq_refl eq_refl eq_refl eq_refl)
                  eq_refl)).
Defined.


End RunsSpec.

(* ===================================================================== *)
(** * The facade when construction fails *)
(* ===================================================================== *)

Module FacadeFailures.
Import Js Eff Eff.Notations Facade EffFacts.

Section Construction.
Context {Construct IRole ServiceNamespace ScalableTarget : Type}.
Context {ScalingSchedule BasicStepScalingPolicyProps
         BasicTargetTrackingScalingPolicyProps : Type}.

Local Abbreviation E :=
  (targetE Construct IRole ServiceNamespace ScalableTarget ScalingSchedule
     BasicStepScalingPolicyProps BasicTargetTrackingScalingPolicyProps).
Local Abbreviation attribute_props :=
  (BaseScalableAttributeProps IRole ServiceNamespace).

(** X13. When the constructor of the base class throws, the constructor
    of the attribute throws the same value and has asked for no scalable
    target: the call of the base constructor is all that happened.  In
    every run the constructor asks for at most one target. *)
Theorem constructor_fails_with_its_base :
  (forall (S : Type) (h : handler E S) (s s1 : S) parent id
      (props : attribute_props) e,
      h _ (ConstructSuper parent id) s = (Throw e, s1) ->
      run h (constructor parent id props) s
      = (Throw e, s1, [Obs (ConstructSuper parent id) (Throw e)])
      /\ omap new_target_props (run h (constructor parent id props) s).2 = [])
  /\ (forall (S : Type) (h : handler E S) (s : S) parent id (props : attribute_props),
      (length (omap new_target_props (run h (constructor parent id props) s).2)
       <= 1)%nat).
Proof.
  split.
  - intros S h s s1 parent id props e Hsuper.
    assert (Hrun : run h (constructor parent id props) s
                   = (Throw e, s1, [Obs (ConstructSuper parent id) (Throw e)])).
    { unfold constructor. by rewrite run_bind, run_perform, Hsuper. }
    split; [exact Hrun | by rewrite Hrun].
  - intros S h s parent id props.
    unfold constructor. rewrite run_bind, run_perform.
    destruct (h _ (ConstructSuper parent id) s) as [[this|e] s1]; cbn [fst snd].
    + rewrite run_bind, run_perform.
      destruct (h _ (NewScalableTarget _ _ _) s1) as [[made|e] s2];
        cbn [fst snd]; simpl; lia.
    + simpl. lia.
Qed.
End Construction.

Lemma constructor_fails_with_its_base_witness :
  let props : BaseScalableAttributeProps unit string :=
    {| scaling := {| minCapacity := Some 5%Z; maxCapacity := 10%Z |};
       serviceNamespace := "dynamodb";
       resourceId := "table/T";
       dimension := "dynamodb:table:ReadCapacityUnits";
       role := tt |} in
  Mishaps.refuse_children _ (ConstructSuper 0%nat "Scaling") tt
  = (Throw (Error "duplicate id"), tt)
  /\ run Mishaps.refuse_children (constructor 0%nat "Scaling" props) tt
     = (Throw (Error "duplicate id"), tt,
        [Obs (ConstructSuper 0%nat "Scaling") (Throw (Error "duplicate id"))]).
Proof.
  intros props. split; [reflexivity|].
  exact (proj1 (proj1 (constructor_fails_with_its_base
                         (Construct := nat) (IRole := unit)
                         (ServiceNamespace := string) (ScalableTarget := nat)
                         (ScalingSchedule := unit)
                         (BasicStepScalingPolicyProps := unit)
                         (BasicTargetTrackingScalingPolicyProps := unit))
                  unit Mishaps.refuse_children tt tt 0%nat "Scaling" props
                  (Error "duplicate id") eq_refl)).
Defined.

End FacadeFailures.
